(** * Batch uploader (src/app.py): the request handlers and the upload worker

    A shallow embedding of the Flask application in [src/app.py].

    - The module-level globals ([upload_status], the two [threading.Event]s,
      the launched threads) and the client's [session] form the state [Sys].
    - Every request handler is a function [Req -> Sys -> Sys * Response].
    - [upload_worker] runs on a thread of its own, so it is given a
      small-step semantics: a program counter named after the source line
      of the statement about to run, and one transition per statement.
      A schedule is a list of labels (requests and thread ticks). *)

From Stdlib Require Import ZArith Lia.
From Stdlib Require Import Ascii String.
From stdpp Require Import base tactics option list gmap strings pretty.

Open Scope string_scope.

(** ** File-name checks (lines 36-47) *)

Definition ALLOWED_SPREADSHEET_EXTENSIONS : list string := ["csv"; "xlsx"; "xls"].
Definition ALLOWED_IMAGE_EXTENSIONS : list string := ["png"; "jpg"; "jpeg"; "gif"].

(** [filename.rsplit('.', 1)[1]] when ['.' in filename]: the text after the
    last dot; [None] when the name has no dot. *)
Fixpoint rsplit_dot (filename : string) : option string :=
  match filename with
  | EmptyString => None
  | String c rest =>
      match rsplit_dot rest with
      | Some ext => Some ext
      | None => if Ascii.eqb c "."%char then Some rest else None
      end
  end.

(** [str.lower] on the bytes of the name: the letters A-Z are the only
    characters whose lower case is one of the letters of the allowed
    extensions. *)
Definition lower_ascii (c : ascii) : ascii :=
  let n := nat_of_ascii c in
  if (65 <=? n)%nat && (n <=? 90)%nat then ascii_of_nat (n + 32) else c.

Fixpoint lower (s : string) : string :=
  match s with
  | EmptyString => EmptyString
  | String c rest => String (lower_ascii c) (lower rest)
  end.

Definition allowed_file (allowed : list string) (filename : string) : bool :=
  match rsplit_dot filename with
  | Some ext => bool_decide (lower ext ∈ allowed)
  | None => false
  end.

Definition allowed_spreadsheet_file : string -> bool :=
  allowed_file ALLOWED_SPREADSHEET_EXTENSIONS.

Definition allowed_image_file : string -> bool :=
  allowed_file ALLOWED_IMAGE_EXTENSIONS.

(** ** Data model *)

(** The value under the key ["product"] of an error entry: the 1-based item
    number (line 177) or one of the sentinels ["note"] and ["global"]. *)
Inductive ProductRef :=
| RefNum (n : nat)
| RefStr (s : string).

Record ErrorRecord := mkError {
  product : ProductRef;
  title : string;
  error : string
}.

(** The dict bound to the global [upload_status] (lines 19-27). *)
Record Status := mkStatus {
  total : nat;
  current : nat;
  success : nat;
  failed : nat;
  status : string;
  errors : list ErrorRecord;
  current_product : string
}.

(** The literal of lines 19-27 and 60-68. *)
Definition initial_status : Status :=
  mkStatus 0 0 0 0 "idle" [] "".

Definition set_total (n : nat) (st : Status) : Status :=
  mkStatus n (current st) (success st) (failed st) (status st) (errors st)
           (current_product st).
Definition set_current (n : nat) (st : Status) : Status :=
  mkStatus (total st) n (success st) (failed st) (status st) (errors st)
           (current_product st).
Definition incr_success (st : Status) : Status :=
  mkStatus (total st) (current st) (success st + 1) (failed st) (status st)
           (errors st) (current_product st).
Definition incr_failed (st : Status) : Status :=
  mkStatus (total st) (current st) (success st) (failed st + 1) (status st)
           (errors st) (current_product st).
Definition set_status (v : string) (st : Status) : Status :=
  mkStatus (total st) (current st) (success st) (failed st) v (errors st)
           (current_product st).
Definition append_error (r : ErrorRecord) (st : Status) : Status :=
  mkStatus (total st) (current st) (success st) (failed st) (status st)
           (errors st ++ [r]) (current_product st).
Definition set_current_product (v : string) (st : Status) : Status :=
  mkStatus (total st) (current st) (success st) (failed st) (status st)
           (errors st) v.

(** One record of the parsed spreadsheet: a dict with string keys. *)
Abbreviation Product := (gmap string string).

(** The keys of the Flask [session] that the handlers use; [None] is an
    absent key.  One client session is modelled, as Flask keeps it from one
    request to the next: the session is saved at the end of a request when
    [session.modified] is set, which an assignment to one of its keys does
    and a write into a dict held under a key does not. *)
Record Session := mkSession {
  sess_file_path : option string;
  sess_product_count : option nat;
  sess_image_paths : option (list string);
  sess_image_mappings : option (gmap string string);
  sess_image_mode : option string
}.

Definition empty_session : Session := mkSession None None None None None.

(** Modelled from the spec: the Item Processor of section 4.4
    ([utils.selenium_driver.MerchAutomation], which is not under src/), as
    the worker uses it: [upload_product] returns or raises, and so does
    [close].  [None] is a normal return, [Some msg] an exception whose
    [str] is [msg].  The first argument of [upload_product] is the number of
    earlier calls on the same handle, so that the outcome may depend on the
    position of the item and not only on its fields.  The loop reaches it
    through the name [automation]; no statement of [src/app.py] creates
    one. *)
Record Automation := mkAutomation {
  upload_product : nat -> Product -> option string;
  close : option string
}.

(** What the program takes from outside [src/app.py]. *)
Record Externals := mkExternals {
  (** [werkzeug.utils.secure_filename] *)
  secure_filename : string -> string;
  (** [os.path.join] *)
  path_join : string -> string -> string;
  (** the two [tempfile.mkdtemp()] directories of lines 34-35 *)
  SPREADSHEET_FOLDER : string;
  IMAGES_FOLDER : string;
  (** [utils.spreadsheet_parser.parse_spreadsheet], as a function of the
      bytes of the file: the records, or [inl msg] when it raises *)
  parse_spreadsheet : string -> string + list Product
}.

(** What a thread has done to the outside world, oldest first. *)
Inductive Event :=
| ESleep (seconds : Z)
| EProcess (p : Product)
| EClose.

Global Instance ProductRef_eq_dec : EqDecision ProductRef.
Proof. solve_decision. Defined.
Global Instance ErrorRecord_eq_dec : EqDecision ErrorRecord.
Proof. solve_decision. Defined.
Global Instance Status_eq_dec : EqDecision Status.
Proof. solve_decision. Defined.
Global Instance Event_eq_dec : EqDecision Event.
Proof. solve_decision. Defined.

(** ** The worker thread *)

(** The statement a thread is about to run, named after its line in
    [src/app.py].  The [return] of line 132 sits above the loop of line 142.
    Lines 136 and 139 are comments: no statement of the source binds the
    names [automation] and [image_mappings] that the loop reads. *)
Inductive PC :=
| L116 | L117 | L118 | L121 | L128 | L129 | L132
| L142 | L144 | L145 | L146 | L149 | L150 | L151
| L153 | L154 | L155
| L159 | L160 | L162 | L163 | L166 | L169 | L170 | L171
| L174 | L175 | L176
| L183 | L184
| L187 | L189 | L190
| Done.

Global Instance PC_eq_dec : EqDecision PC.
Proof. solve_decision. Defined.

(** A thread created at lines 224-229: the arguments of [upload_worker], the
    program counter, the local variables and the events so far.  A local
    that is [None] is a name that has not been bound; [upload_worker] binds
    neither [automation] nor [image_mappings]. *)
Record Thread := mkThread {
  a_file_path : string;
  a_headless : bool;
  a_delay : Z;
  pc : PC;
  v_products : list Product;
  v_next : nat;                      (* position of the [enumerate] iterator *)
  v_i : nat;
  v_product : Product;
  v_original_path : string;
  v_e : string;                      (* [str(e)] of the exception in flight *)
  v_automation : option Automation;
  v_image_mappings : option (gmap string string);
  log : list Event
}.

Definition new_thread (file_path : string) (headless : bool) (delay : Z) : Thread :=
  mkThread file_path headless delay L116 [] 0 0 ∅ "" "" None None [].

Definition goto (l : PC) (w : Thread) : Thread :=
  mkThread (a_file_path w) (a_headless w) (a_delay w) l (v_products w)
           (v_next w) (v_i w) (v_product w) (v_original_path w) (v_e w)
           (v_automation w) (v_image_mappings w) (log w).
Definition set_products (ps : list Product) (w : Thread) : Thread :=
  mkThread (a_file_path w) (a_headless w) (a_delay w) (pc w) ps
           (v_next w) (v_i w) (v_product w) (v_original_path w) (v_e w)
           (v_automation w) (v_image_mappings w) (log w).
Definition set_item (n : nat) (p : Product) (w : Thread) : Thread :=
  mkThread (a_file_path w) (a_headless w) (a_delay w) (pc w) (v_products w)
           (S n) n p (v_original_path w) (v_e w)
           (v_automation w) (v_image_mappings w) (log w).
Definition set_product (p : Product) (w : Thread) : Thread :=
  mkThread (a_file_path w) (a_headless w) (a_delay w) (pc w)
           (<[v_i w := p]> (v_products w))
           (v_next w) (v_i w) p (v_original_path w) (v_e w)
           (v_automation w) (v_image_mappings w) (log w).
Definition set_original_path (v : string) (w : Thread) : Thread :=
  mkThread (a_file_path w) (a_headless w) (a_delay w) (pc w) (v_products w)
           (v_next w) (v_i w) (v_product w) v (v_e w)
           (v_automation w) (v_image_mappings w) (log w).
Definition emit (ev : Event) (w : Thread) : Thread :=
  mkThread (a_file_path w) (a_headless w) (a_delay w) (pc w) (v_products w)
           (v_next w) (v_i w) (v_product w) (v_original_path w) (v_e w)
           (v_automation w) (v_image_mappings w) (log w ++ [ev]).
(** An exception is raised: control moves to the handler [l] with [e] bound. *)
Definition raise (l : PC) (msg : string) (w : Thread) : Thread :=
  mkThread (a_file_path w) (a_headless w) (a_delay w) l (v_products w)
           (v_next w) (v_i w) (v_product w) (v_original_path w) msg
           (v_automation w) (v_image_mappings w) (log w).

(** ** The state of the process *)

Record Sys := mkSys {
  upload_status : Status;
  upload_pause_event : bool;
  upload_stop_event : bool;
  session : Session;
  (** the files saved so far: path to content *)
  files : gmap string string;
  (** every thread started so far, oldest first; [upload_thread] is the last *)
  threads : list Thread
}.

Definition initial : Sys :=
  mkSys initial_status false false empty_session ∅ [].

Definition with_status (f : Status -> Status) (s : Sys) : Sys :=
  mkSys (f (upload_status s)) (upload_pause_event s) (upload_stop_event s)
        (session s) (files s) (threads s).
Definition with_events (pause stop : bool) (s : Sys) : Sys :=
  mkSys (upload_status s) pause stop (session s) (files s) (threads s).
Definition with_session (se : Session) (s : Sys) : Sys :=
  mkSys (upload_status s) (upload_pause_event s) (upload_stop_event s)
        se (files s) (threads s).
Definition with_file (path content : string) (s : Sys) : Sys :=
  mkSys (upload_status s) (upload_pause_event s) (upload_stop_event s)
        (session s) (<[path := content]> (files s)) (threads s).
Definition with_threads (ts : list Thread) (s : Sys) : Sys :=
  mkSys (upload_status s) (upload_pause_event s) (upload_stop_event s)
        (session s) (files s) ts.

(** ** Responses and requests *)

Inductive Response :=
| Success (message : string)
| Rejected (code : nat) (message : string)
| UploadOk (count : nat) (image_paths : list string)
| ImageOk (path : string)
| StatusJson (st : Status)
| Silent.

(** The JSON body of [POST /start]: an absent key is [None]; [r_delay] holds
    what [int(...)] makes of the value, [inl msg] when it raises. *)
Record StartReq := mkStartReq {
  r_headless : option bool;
  r_delay : option (string + Z);
  r_image_mode : option string
}.

(** The multipart form of [POST /upload_image]: the file part (name and
    content) and the two form fields. *)
Record ImageReq := mkImageReq {
  r_image : option (string * string);
  r_index : option string;
  r_original_path : option string
}.

(** Python truthiness of a form field that may be missing. *)
Definition truthy (v : option string) : option string :=
  match v with
  | Some x => if String.eqb x "" then None else Some x
  | None => None
  end.

Fixpoint count_events (f : Event -> bool) (l : list Event) : nat :=
  match l with
  | [] => 0
  | ev :: l' => (if f ev then 1 else 0) + count_events f l'
  end.

Definition is_process (ev : Event) : bool :=
  match ev with EProcess _ => true | _ => false end.
Definition is_close (ev : Event) : bool :=
  match ev with EClose => true | _ => false end.

(** Lines 160-166: the path the item is uploaded with. *)
Definition resolve (image_mappings : gmap string string) (original_path : string) : string :=
  match image_mappings !! original_path with
  | Some uploaded => uploaded
  | None => original_path
  end.

(** [product.get('title', f'Product {i+1}')] *)
Definition title_or_default (p : Product) (i : nat) : string :=
  match p !! "title" with
  | Some t => t
  | None => "Product " +:+ pretty (i + 1)
  end.

(** [time.sleep(seconds)] for an integer argument (CPython 3.11, 64-bit):
    the length is converted to a signed 64-bit count of nanoseconds, which
    overflows from 9223372037 seconds on in either direction and raises
    [OverflowError]; a negative length that converts raises [ValueError].
    [None] is a normal return after the sleep, [Some msg] an exception whose
    [str] is [msg]. *)
Definition time_sleep (seconds : Z) : option string :=
  if (seconds <=? -9223372037)%Z || (9223372037 <=? seconds)%Z
  then Some "timestamp too large to convert to C _PyTime_t"
  else if (seconds <? 0)%Z then Some "sleep length must be non-negative"
  else None.

(** The record appended at lines 121-125. *)
Definition note_record : ErrorRecord :=
  mkError (RefStr "note") "Local Execution Required"
    "This batch uploader needs to be run on your local machine to access Chrome. Please download this code and run it locally.".

Section Program.

Variable ext : Externals.

(** [parse_spreadsheet(file_path)]: the parser reads the file at the path. *)
Definition parse_file (s : Sys) (file_path : string) : string + list Product :=
  match files s !! file_path with
  | Some content => parse_spreadsheet ext content
  | None => inl "No such file or directory"
  end.

(** *** [upload_worker] (lines 110-194), one statement at a time *)
Definition upload_worker (s : Sys) (w : Thread) : Sys * Thread :=
  match pc w with
  | L116 =>
      match parse_file s (a_file_path w) with
      | inr products => (s, goto L117 (set_products products w))
      | inl msg => (s, raise L187 msg w)
      end
  | L117 => (with_status (set_total (length (v_products w))) s, goto L118 w)
  | L118 => (with_status (set_status "running") s, goto L121 w)
  | L121 => (with_status (append_error note_record) s, goto L128 w)
  | L128 => (s, goto L129 (emit (ESleep 5) w))
  | L129 => (with_status (set_status "completed") s, goto L132 w)
  | L132 => (s, goto Done w)
  | L142 =>
      match v_products w !! v_next w with
      | Some p => (s, goto L144 (set_item (v_next w) p w))
      | None => (s, goto L183 w)
      end
  | L144 => if upload_stop_event s then (s, goto L145 w) else (s, goto L149 w)
  | L145 => (with_status (set_status "stopped") s, goto L146 w)
  | L146 => (s, goto L183 w)
  | L149 =>
      if upload_pause_event s && negb (upload_stop_event s)
      then (s, goto L150 w) else (s, goto L153 w)
  | L150 => (with_status (set_status "paused") s, goto L151 w)
  | L151 => (s, goto L149 (emit (ESleep 1) w))
  | L153 => (with_status (set_status "running") s, goto L154 w)
  | L154 => (with_status (set_current (v_i w + 1)) s, goto L155 w)
  | L155 =>
      (with_status (set_current_product (title_or_default (v_product w) (v_i w))) s,
       goto L159 w)
  | L159 =>
      match v_product w !! "image_path" with
      | Some path => (s, goto L160 (set_original_path path w))
      | None => (s, raise L174 "'image_path'" w)
      end
  | L160 =>
      match v_image_mappings w with
      | None => (s, raise L174 "name 'image_mappings' is not defined" w)
      | Some m =>
          if bool_decide (is_Some (m !! v_original_path w))
          then (s, goto L162 w) else (s, goto L166 w)
      end
  | L162 =>
      match v_image_mappings w with
      | None => (s, raise L174 "name 'image_mappings' is not defined" w)
      | Some m =>
          match m !! v_original_path w with
          | Some uploaded =>
              (s, goto L163 (set_product (<["image_path" := uploaded]> (v_product w)) w))
          | None => (s, raise L174 ("'" +:+ v_original_path w +:+ "'") w)
          end
      end
  | L163 | L166 =>
      match v_product w !! "title" with
      | Some _ => (s, goto L169 w)
      | None => (s, raise L174 "'title'" w)
      end
  | L169 =>
      match v_automation w with
      | None => (s, raise L174 "name 'automation' is not defined" w)
      | Some a =>
          let w' := emit (EProcess (v_product w)) w in
          match upload_product a (count_events is_process (log w)) (v_product w) with
          | None => (s, goto L170 w')
          | Some msg => (s, raise L174 msg w')
          end
      end
  | L170 => (with_status incr_success s, goto L171 w)
  | L171 =>
      match time_sleep (a_delay w) with
      | None => (s, goto L142 (emit (ESleep (a_delay w)) w))
      | Some msg => (s, raise L174 msg w)
      end
  | L174 => (s, goto L175 w)
  | L175 => (with_status incr_failed s, goto L176 w)
  | L176 =>
      (with_status
         (append_error (mkError (RefNum (v_i w + 1))
                                (title_or_default (v_product w) (v_i w))
                                (v_e w))) s,
       goto L142 w)
  | L183 =>
      match v_automation w with
      | None => (s, raise L187 "name 'automation' is not defined" w)
      | Some a =>
          let w' := emit EClose w in
          match close a with
          | None => (s, goto L184 w')
          | Some msg => (s, raise L187 msg w')
          end
      end
  | L184 => (with_status (set_status "completed") s, goto Done w)
  | L187 => (s, goto L189 w)
  | L189 => (with_status (set_status "error") s, goto L190 w)
  | L190 =>
      (with_status (append_error (mkError (RefStr "global") "Global Error" (v_e w))) s,
       goto Done w)
  | Done => (s, w)
  end.

(** *** [upload_file] (lines 54-108) *)
Definition upload_file (file : option (string * string)) (s : Sys) : Sys * Response :=
  let s := with_status (fun _ => initial_status) s in
  match file with
  | None => (s, Rejected 400 "No file part")
  | Some (filename, content) =>
      if String.eqb filename "" then (s, Rejected 400 "No file selected")
      else if negb (allowed_spreadsheet_file filename)
      then (s, Rejected 400 "File type not allowed")
      else
        let file_path := path_join ext (SPREADSHEET_FOLDER ext)
                                   (secure_filename ext filename) in
        let s := with_file file_path content s in
        match parse_file s file_path with
        | inl msg => (s, Rejected 500 ("Error processing spreadsheet: " +:+ msg))
        | inr products =>
            let se := session s in
            let se1 := mkSession (Some file_path) (Some (length products))
                                 (sess_image_paths se) (sess_image_mappings se)
                                 (sess_image_mode se) in
            match mapM (fun p : Product => p !! "image_path") products with
            | Some image_paths =>
                (with_session
                   (mkSession (Some file_path) (Some (length products))
                              (Some image_paths) (sess_image_mappings se)
                              (sess_image_mode se)) s,
                 UploadOk (length products) image_paths)
            | None =>
                (with_session se1 s,
                 Rejected 500 "Error processing spreadsheet: 'image_path'")
            end
        end
  end.

(** *** [start_upload] (lines 196-231) *)
Definition start_upload (r : StartReq) (s : Sys) : Sys * Response :=
  match sess_file_path (session s) with
  | None => (s, Rejected 400 "No file has been uploaded yet")
  | Some file_path =>
      if String.eqb (status (upload_status s)) "running"
      then (s, Rejected 400 "Upload already in progress")
      else
        let headless := default false (r_headless r) in
        match default (inr 2%Z) (r_delay r) with
        | inl msg => (s, Rejected 500 msg)
        | inr delay =>
            let s := with_events false false s in
            let image_mode := default "local" (r_image_mode r) in
            let se := session s in
            let s := with_session
                       (mkSession (sess_file_path se) (sess_product_count se)
                                  (sess_image_paths se) (sess_image_mappings se)
                                  (Some image_mode)) s in
            (with_threads (threads s ++ [new_thread file_path headless delay]) s,
             Success "Upload started")
        end
  end.

(** *** [upload_image] (lines 233-268) *)
Definition upload_image (r : ImageReq) (s : Sys) : Sys * Response :=
  match r_image r with
  | None => (s, Rejected 400 "No image file part")
  | Some (filename, content) =>
      if String.eqb filename "" then (s, Rejected 400 "No image selected")
      else if negb (allowed_image_file filename)
      then (s, Rejected 400 "Image file type not allowed")
      else
        match truthy (r_index r), truthy (r_original_path r) with
        | Some _, Some original_path =>
            let file_path := path_join ext (IMAGES_FOLDER ext)
                                       (secure_filename ext filename) in
            let s := with_file file_path content s in
            let se := session s in
            match sess_image_mappings se with
            | None =>
                (* lines 259-260 assign the key, so the session is saved
                   with the entry that line 262 adds *)
                (with_session
                   (mkSession (sess_file_path se) (sess_product_count se)
                              (sess_image_paths se)
                              (Some (<[original_path := file_path]> ∅))
                              (sess_image_mode se)) s,
                 ImageOk file_path)
            | Some _ =>
                (* line 262 alone writes into the dict held under the key:
                   the session is not marked modified and is not saved *)
                (s, ImageOk file_path)
            end
        | _, _ => (s, Rejected 400 "Missing image index or original path")
        end
  end.

(** *** [get_status], [pause_upload], [resume_upload], [stop_upload]
    (lines 270-301) *)
Definition get_status (s : Sys) : Sys * Response :=
  (s, StatusJson (upload_status s)).

Definition pause_upload (s : Sys) : Sys * Response :=
  if negb (String.eqb (status (upload_status s)) "running")
  then (s, Rejected 400 "No active upload to pause")
  else (with_events true (upload_stop_event s) s, Success "Upload paused").

Definition resume_upload (s : Sys) : Sys * Response :=
  if negb (String.eqb (status (upload_status s)) "paused")
  then (s, Rejected 400 "No paused upload to resume")
  else (with_events false (upload_stop_event s) s, Success "Upload resumed").

Definition stop_upload (s : Sys) : Sys * Response :=
  if negb (bool_decide (status (upload_status s) ∈ ["running"; "paused"]))
  then (s, Rejected 400 "No active upload to stop")
  else (with_events false true s, Success "Upload stopped").

(** ** Schedules *)

(** One atomic action of the process: a request served by its handler, or
    the next statement of the thread with the given index. *)
Inductive Label :=
| Upload (file : option (string * string))
| Start (r : StartReq)
| UploadImage (r : ImageReq)
| GetStatus
| Pause
| Resume
| Stop
| Tick (tid : nat).

Definition tick (tid : nat) (s : Sys) : Sys :=
  match threads s !! tid with
  | Some w =>
      let '(s', w') := upload_worker s w in
      with_threads (<[tid := w']> (threads s')) s'
  | None => s
  end.

Definition step (l : Label) (s : Sys) : Sys * Response :=
  match l with
  | Upload file => upload_file file s
  | Start r => start_upload r s
  | UploadImage r => upload_image r s
  | GetStatus => get_status s
  | Pause => pause_upload s
  | Resume => resume_upload s
  | Stop => stop_upload s
  | Tick tid => (tick tid s, Silent)
  end.

Fixpoint exec (tr : list Label) (s : Sys) : Sys :=
  match tr with
  | [] => s
  | l :: tr' => exec tr' (fst (step l s))
  end.

(** The responses of a schedule, in order. *)
Fixpoint responses (tr : list Label) (s : Sys) : list Response :=
  match tr with
  | [] => []
  | l :: tr' => snd (step l s) :: responses tr' (fst (step l s))
  end.

Definition reachable (s : Sys) : Prop := exists tr, exec tr initial = s.

(** A thread is active until it has returned. *)
Definition active (w : Thread) : bool := negb (bool_decide (pc w = Done)).

Definition active_tasks (s : Sys) : nat := length (filter (fun w => active w = true) (threads s)).

(** The worker alone: [n] consecutive statements of one thread. *)
Fixpoint run (n : nat) (x : Sys * Thread) : Sys * Thread :=
  match n with
  | 0 => x
  | S n' => run n' (upload_worker (fst x) (snd x))
  end.

End Program.

(** ** Concrete instances for the examples *)

Definition prodA : Product := {[ "title" := "A"; "image_path" := "a.png" ]}.
Definition prodB : Product := {[ "title" := "B"; "image_path" := "b.png" ]}.
Definition prodC : Product := {[ "title" := "C"; "image_path" := "c.png" ]}.

(** A processor that fails on its second call only. *)
Definition fails_on_second : Automation :=
  mkAutomation (fun calls _ => if Nat.eqb calls 1 then Some "upload failed" else None)
               None.

(** An environment in which every file parses to the items A, B, C unless
    its content is ["bad"]. *)
Definition demo_ext : Externals :=
  mkExternals (fun name => name) (fun dir name => dir +:+ "/" +:+ name)
    "/tmp/sheets" "/tmp/images"
    (fun content => if String.eqb content "bad" then inl "cannot parse"
                    else inr [prodA; prodB; prodC]).

Definition default_start : StartReq := mkStartReq None None None.

Definition good_sheet : Label := Upload (Some ("items.csv", "good")).
Definition bad_sheet : Label := Upload (Some ("items.csv", "bad")).

(** A complete run of the first thread: upload, start, and the seven
    statements of the worker. *)
Definition one_run : list Label :=
  [good_sheet; Start default_start;
   Tick 0; Tick 0; Tick 0; Tick 0; Tick 0; Tick 0; Tick 0].

(** A thread standing at the head of the loop of line 142 with the given
    items and both names bound.  The [return] of line 132 keeps every
    started thread from the loop, and nothing binds the two names: such a
    thread is written down by hand, to state what the text of the loop
    does. *)
Definition loop_thread (items : list Product) (a : Automation)
    (m : gmap string string) (delay : Z) : Thread :=
  mkThread "/tmp/sheets/items.csv" false delay L142 items 0 0 ∅ "" ""
           (Some a) (Some m) [].

(** The state a spreadsheet upload leaves behind, with the given signals. *)
Definition fresh (pause stop : bool) : Sys :=
  with_events pause stop (exec demo_ext [good_sheet] initial).

(** ** The claims that the code does not meet, as predicates *)

(** The number of items of the spreadsheet the session points to. *)
Definition item_count (ext : Externals) (s : Sys) : option nat :=
  match sess_file_path (session s) with
  | Some file_path =>
      match parse_file ext s file_path with
      | inr products => Some (length products)
      | inl _ => None
      end
  | None => None
  end.

(** "An accepted Start resets the status before the task is launched":
    the status and the signals in the state Start returns. *)
Definition start_resets_status (ext : Externals) (r : StartReq) (s : Sys) : Prop :=
  forall s' message,
    start_upload r s = (s', Success message) ->
    Some (total (upload_status s')) = item_count ext s /\
    current (upload_status s') = 0 /\
    success (upload_status s') = 0 /\
    failed (upload_status s') = 0 /\
    errors (upload_status s') = [] /\
    upload_pause_event s' = false /\
    upload_stop_event s' = false.

(** "A spreadsheet that cannot be parsed makes Start fail at once and
    nothing begins": Start answers with a rejection and returns the state
    it was given. *)
Definition start_rejects_unparsable (ext : Externals) (r : StartReq) (s : Sys) : Prop :=
  item_count ext s = None ->
  exists code message, start_upload r s = (s, Rejected code message).

(** ** Invariants of the process as it is started *)

(** The statements a thread started at line 116 can reach: the ones above
    the [return] of line 132 and the outer handler. *)
Definition above_return (l : PC) : bool :=
  match l with
  | L116 | L117 | L118 | L121 | L128 | L129 | L132
  | L187 | L189 | L190 | Done => true
  | _ => false
  end.

(** Such a thread has bound neither name of the loop, and has neither used
    nor closed a processor. *)
Definition stub_thread (w : Thread) : Prop :=
  above_return (pc w) = true /\
  (v_automation w = None /\ v_image_mappings w = None) /\
  count_events is_process (log w) = 0 /\
  count_events is_close (log w) = 0.

Definition stub_system (s : Sys) : Prop :=
  current (upload_status s) = 0 /\
  success (upload_status s) = 0 /\
  failed (upload_status s) = 0 /\
  Forall stub_thread (threads s).

(** The labels that leave the status, the files and every thread but [tid]
    alone: the control requests and the statements of thread [tid]. *)
Definition quiet (tid : nat) (l : Label) : bool :=
  match l with
  | Start _ | GetStatus | Pause | Resume | Stop => true
  | Tick t => bool_decide (t = tid)
  | Upload _ | UploadImage _ => false
  end.


(** ** The processor's lifecycle, in the text of the loop *)

(** Where a thread that entered the loop with the processor bound stands
    between the head of the loop and its return: no close up to line 183,
    one from line 184 on and in the handler. *)
Definition close_inv (w : Thread) : Prop :=
  let closes := count_events is_close (log w) in
  match pc w with
  | L116 | L117 | L118 | L121 | L128 | L129 | L132 => False
  | L184 | L187 | L189 | L190 | Done => closes = 1
  | _ => closes = 0 /\ is_Some (v_automation w)
  end.

(** The process with one such thread at the head of the loop, in the state
    that an upload and lines 116-118 leave behind. *)
Definition local_sys (items : list Product) (delay : Z) : Sys :=
  with_threads [loop_thread items fails_on_second ∅ delay]
    (with_status (fun st => set_status "running" (set_total (length items) st))
                 (fresh false false)).

(** Four statements bring that thread to line 154 with the state running; a
    stop request then ends the run at the next check of line 144. *)
Definition stopped_run : list Label :=
  (replicate 4 (Tick 0) ++ [Stop] ++ replicate 14 (Tick 0))%list.

(** ** The loop of lines 142-181 *)

Definition titles (items : list Product) : list (option string) :=
  map (fun p : Product => p !! "title") items.

(** The record appended at lines 176-180 for the item with 0-based index [k]. *)
Definition item_error (k : nat) (t e : string) : ErrorRecord :=
  mkError (RefNum (k + 1)) t e.

(** The loop invariant at the head of the loop (line 142) when [j] items
    have been handled, for a processor [a] that fails on its call number [k]
    only, with the message [e], and items whose titles are [tl]. *)
Record loop_inv (a : Automation) (m : gmap string string) (k : nat)
    (e t : string) (tl : list (option string)) (j : nat) (s : Sys) (w : Thread)
  : Prop := mkLoopInv {
  li_pc : pc w = L142;
  li_next : v_next w = j;
  li_titles : titles (v_products w) = tl;
  li_paths : Forall (fun p : Product => is_Some (p !! "image_path")) (v_products w);
  li_automation : v_automation w = Some a;
  li_mappings : v_image_mappings w = Some m;
  li_delay : time_sleep (a_delay w) = None;
  li_calls : count_events is_process (log w) = j;
  li_closes : count_events is_close (log w) = 0;
  li_pause : upload_pause_event s = false;
  li_stop : upload_stop_event s = false;
  li_success : success (upload_status s) = j - (if (k <? j)%nat then 1 else 0);
  li_failed : failed (upload_status s) = if (k <? j)%nat then 1 else 0;
  li_errors : errors (upload_status s) =
              if (k <? j)%nat then [item_error k t e] else [];
  li_current : j = 0 \/ current (upload_status s) = j
}.

(** "A run of [n] items with one failing item [k] ends with one failure,
    [n - 1] successes, the state completed and one error record for item
    [k]", as a predicate on the final status. *)
Definition isolates_failure (st : Status) (n k : nat) (t : string) : Prop :=
  failed st = 1 /\ success st = n - 1 /\ status st = "completed" /\
  exists r, errors st = [r] /\ product r = RefNum (k + 1) /\ title r = t.

(** ** The claims on the stop signal, the processor, total and the mapping table *)



(** A run is started, and the snapshot is taken when the worker has
    published total and the state running. *)
Definition running_snapshot : list Label :=
  [good_sheet; Start default_start; Tick 0; Tick 0; Tick 0].

(** A request to the upload route without a file part, and the rest of the
    run. *)
Definition reset_and_finish : list Label :=
  Upload None :: replicate 4 (Tick 0).

(** "success + failed <= current <= total, with total fixed at run start",
    for the snapshot after [tr1], taken during a run, and the one after
    [tr1 ++ tr2]. *)
Definition snapshot_claim (ext : Externals) (tr1 tr2 : list Label) : Prop :=
  let st1 := upload_status (exec ext tr1 initial) in
  let st2 := upload_status (exec ext (tr1 ++ tr2) initial) in
  success st2 + failed st2 <= current st2 /\ current st2 <= total st2 /\
  total st2 = total st1.

(** The image of item A is uploaded for the original path a.png, and a run
    is started and left to finish. *)
Definition run_after_image : list Label :=
  ([good_sheet;
    UploadImage (mkImageReq (Some ("shirt.png", "bytes")) (Some "0") (Some "a.png"));
    Start default_start] ++ replicate 7 (Tick 0))%list.

(** "After SubmitImageMapping(p, q) the resolver maps p to q".  The resolver
    is lines 159-166 of the worker, which look the path up in the table
    bound to the name [image_mappings]: after the schedule [tr] a thread
    holds a table in which [p] resolves to [q]. *)
Definition resolver_maps (ext : Externals) (tr : list Label) (p q : string) : Prop :=
  exists tid w m,
    threads (exec ext tr initial) !! tid = Some w /\
    v_image_mappings w = Some m /\ resolve m p = q.

(** ** Schedules of the examples *)

(** Two Start requests in a row, before the first worker has run. *)
Definition race_starts : list Label :=
  [good_sheet; Start default_start; Start default_start].

(** The first worker sleeps at line 128 with the state running; a request
    to the upload route without a file part resets the status, and Start is
    asked again. *)
Definition restart_after_upload : list Label :=
  ([good_sheet; Start default_start] ++ replicate 4 (Tick 0) ++
   [Upload None; Start default_start])%list.

(** From [local_sys]: the thread reaches line 154, a pause request is
    accepted, the thread finishes its first item and publishes the state
    paused at line 150; Start is asked then. *)
Definition start_while_paused : list Label :=
  (replicate 4 (Tick 0) ++ [Pause] ++ replicate 12 (Tick 0) ++
   [Start default_start])%list.

(** A stop request while the started worker sleeps at line 128, and the
    rest of its run. *)
Definition stop_during_run : list Label :=
  ([good_sheet; Start default_start] ++ replicate 4 (Tick 0) ++ [Stop] ++
   replicate 3 (Tick 0))%list.

(** ** Further definitions for the properties of the handlers and the loop *)

(** ['.' in s] *)
Fixpoint has_dot (s : string) : bool :=
  match s with
  | EmptyString => false
  | String c rest => Ascii.eqb c "."%char || has_dot rest
  end.


(** The states and the error records that a process started from [initial]
    can publish. *)
Definition stub_status (st : Status) : Prop :=
  status st ∈ ["idle"; "running"; "completed"; "error"] /\
  Forall (fun r => r = note_record \/
                   (product r = RefStr "global" /\ title r = "Global Error"))
         (errors st).

(** The Start requests of a schedule that are accepted. *)
Fixpoint accepted_starts (ext : Externals) (tr : list Label) (s : Sys) : nat :=
  match tr with
  | [] => 0
  | l :: tr' =>
      (match l, snd (step ext l s) with
       | Start _, Success _ => 1
       | _, _ => 0
       end) + accepted_starts ext tr' (fst (step ext l s))
  end.

(** The record the processor is given for the item [p]: its image path
    replaced by the uploaded one when the table has it (lines 159-162). *)
Definition substituted (m : gmap string string) (p : Product) : Product :=
  match p !! "image_path" with
  | Some path =>
      match m !! path with
      | Some uploaded => <["image_path" := uploaded]> p
      | None => p
      end
  | None => p
  end.

(** The status once lines 153-155 have run for the item in hand. *)
Definition item_started (w : Thread) (st : Status) : Status :=
  set_current_product (title_or_default (v_product w) (v_i w))
    (set_current (v_i w + 1) (set_status "running" st)).

(** The statements of the wait loop of lines 149-151. *)
Definition waiting (l : PC) : bool :=
  match l with
  | L149 | L150 | L151 => true
  | _ => false
  end.

(** A thread with the single item [p] in hand (index 0), standing at the
    statement [l], with the given bindings of the two names. *)
Definition item_thread (l : PC) (p : Product) (a : option Automation)
    (m : option (gmap string string)) (delay : Z) : Thread :=
  mkThread "/tmp/sheets/items.csv" false delay l [p] 1 0 p "" "" a m [].

(** A processor that never fails. *)
Definition always_ok : Automation := mkAutomation (fun _ _ => None) None.

(** A processor that always fails. *)
Definition always_fails : Automation :=
  mkAutomation (fun _ _ => Some "upload failed") None.

(** How the counters stand at each statement of the loop, for a thread whose
    delay is one that [time.sleep] accepts and whose items are as many as
    total says:
    success + failed is the number of items done with, and current is that
    number or one more. *)
Definition loop_counts (st : Status) (w : Thread) : Prop :=
  let done := success st + failed st in
  let n := length (v_products w) in
  total st = n /\ time_sleep (a_delay w) = None /\
  match pc w with
  | L142 => done = v_next w /\ current st = v_next w /\ v_next w <= n
  | L144 | L145 | L146 | L149 | L150 | L151 | L153 | L154 =>
      done = v_i w /\ current st = v_i w /\ v_i w < n /\ v_next w = S (v_i w)
  | L155 | L159 | L160 | L162 | L163 | L166 | L169 | L170 | L174 | L175 =>
      done = v_i w /\ current st = v_i w + 1 /\ v_i w < n /\ v_next w = S (v_i w)
  | L171 | L176 =>
      done = v_i w + 1 /\ current st = v_i w + 1 /\ v_i w < n /\ v_next w = S (v_i w)
  | L183 | L184 | L187 | L189 | L190 | Done => done <= current st /\ current st <= n
  | _ => False
  end.

(** A record without an image path, and one without a title. *)
Definition prodD : Product := {[ "title" := "D" ]}.
Definition prodE : Product := {[ "image_path" := "e.png" ]}.

(** An environment whose parser returns the items A and D. *)
Definition demo_ext_partial : Externals :=
  mkExternals (secure_filename demo_ext) (path_join demo_ext)
    (SPREADSHEET_FOLDER demo_ext) (IMAGES_FOLDER demo_ext)
    (fun _ => inr [prodA; prodD]).

(** The table after the image of item A has been uploaded. *)
Definition demo_table : gmap string string := {[ "a.png" := "/tmp/images/a.png" ]}.

(** The process with one thread at the head of the loop over A, B, C, in
    the state that an upload and lines 116-118 leave behind. *)
Definition loop_sys (delay : Z) : Sys :=
  with_threads [loop_thread [prodA; prodB; prodC] fails_on_second demo_table delay]
    (with_status (fun st => set_status "running" (set_total 3 st))
                 (fresh false false)).

(** * Properties *)

Section Handlers.

Variable ext : Externals.

(** C10: the spreadsheet upload resets the shared status to the initial
    snapshot (state idle, the four counters 0, no errors, no current item
    label) whatever the request holds and whatever the state was, and it
    leaves the launched threads and the two signals as they were, so a
    running or paused task is reset under its feet. *)
Theorem upload_file_resets_status (file : option (string * string)) (s : Sys) :
  upload_status (fst (upload_file ext file s)) = initial_status /\
  threads (fst (upload_file ext file s)) = threads s /\
  upload_pause_event (fst (upload_file ext file s)) = upload_pause_event s /\
  upload_stop_event (fst (upload_file ext file s)) = upload_stop_event s.
Proof.
  unfold upload_file.
  destruct file as [[filename content]|]; simpl; [|done].
  destruct (String.eqb filename ""); simpl; [done|].
  destruct (allowed_spreadsheet_file filename); simpl; [|done].
  destruct (parse_file _ _ _) as [msg|products]; simpl; [done|].
  destruct (mapM _ products); done.
Qed.

End Handlers.

(** C2, as the code has it: an accepted Start clears both signals and
    launches one new thread at the first statement of the worker with the
    session's file path and the requested options; the status is left
    exactly as it was, and so are the files and the earlier threads. *)
Theorem start_upload_accepted (r : StartReq) (s s' : Sys) (message : string) :
  start_upload r s = (s', Success message) ->
  upload_pause_event s' = false /\
  upload_stop_event s' = false /\
  upload_status s' = upload_status s /\
  files s' = files s /\
  exists file_path delay,
    sess_file_path (session s) = Some file_path /\
    default (inr 2%Z) (r_delay r) = inr delay /\
    threads s' =
      (threads s ++ [new_thread file_path (default false (r_headless r)) delay])%list.
Proof.
  unfold start_upload.
  destruct (sess_file_path (session s)) as [file_path|] eqn:Hfile; [|discriminate].
  destruct (String.eqb _ _); [discriminate|].
  destruct (default _ (r_delay r)) as [msg|delay] eqn:Hdelay; [discriminate|].
  intros [= <- _]. simpl. repeat split; eauto.
Qed.

Lemma start_upload_accepted_witness :
  let s' := fst (start_upload default_start (fresh true true)) in
  upload_pause_event s' = false /\ upload_stop_event s' = false /\
  upload_status s' = initial_status.
Proof.
  intros s'.
  destruct (start_upload_accepted default_start (fresh true true) s'
              "Upload started") as (H1 & H2 & H3 & _).
  - vm_compute. reflexivity.
  - rewrite H1, H2, H3. repeat split; reflexivity.
Defined.

(** C2 fails as stated: after a complete run a second Start is accepted and
    launches its task while the error log still holds the record of the
    first run. *)
Lemma start_upload_keeps_errors :
  ~ start_resets_status demo_ext default_start (exec demo_ext one_run initial).
Proof.
  intros H.
  destruct (start_upload default_start (exec demo_ext one_run initial))
    as [s' resp] eqn:E.
  vm_compute in E. injection E as <- <-.
  edestruct H as (_ & _ & _ & _ & He & _); [vm_compute; reflexivity|].
  vm_compute in He. discriminate.
Qed.

Section Worker.
Variable ext : Externals.
(** The worker neither reads nor writes the list of threads. *)
Lemma upload_worker_threads (s : Sys) (w : Thread) :
  threads (fst (upload_worker ext s w)) = threads s.
Proof.
  unfold upload_worker, parse_file. destruct (pc w); simpl; repeat case_match; done.
Qed.

Lemma upload_worker_with_threads (ts : list Thread) (s : Sys) (w : Thread) :
  upload_worker ext (with_threads ts s) w =
  (with_threads ts (fst (upload_worker ext s w)), snd (upload_worker ext s w)).
Proof.
  unfold upload_worker, parse_file. destruct (pc w); simpl; repeat case_match; done.
Qed.

Lemma tick_lookup (tid : nat) (s : Sys) (w : Thread) :
  threads s !! tid = Some w ->
  tick ext tid s =
  with_threads (<[tid := snd (upload_worker ext s w)]> (threads s))
               (fst (upload_worker ext s w)).
Proof.
  intros H. unfold tick. rewrite H.
  pose proof (upload_worker_threads s w) as Ht.
  destruct (upload_worker ext s w) as [s' w']. simpl in *. by rewrite Ht.
Qed.

Lemma run_with_threads (n : nat) (ts : list Thread) (s : Sys) (w : Thread) :
  run ext n (with_threads ts s, w) =
  (with_threads ts (fst (run ext n (s, w))), snd (run ext n (s, w))).
Proof.
  revert s w. induction n as [|n IH]; intros s w; simpl; [done|].
  rewrite upload_worker_with_threads.
  destruct (upload_worker ext s w) as [s1 w1]; simpl. apply IH.
Qed.

(** Consecutive ticks of one thread are a run of the worker. *)
Lemma exec_ticks (n : nat) (tid : nat) (s : Sys) (w : Thread) :
  threads s !! tid = Some w ->
  exec ext (replicate n (Tick tid)) s =
  with_threads (<[tid := snd (run ext n (s, w))]> (threads s))
               (fst (run ext n (s, w))).
Proof.
  revert s w. induction n as [|n IH]; intros s w H; simpl.
  - rewrite list_insert_id by done. by destruct s.
  - rewrite (tick_lookup _ _ _ H).
    erewrite IH; last first.
    { simpl. apply list_lookup_insert_eq. by eapply lookup_lt_Some. }
    simpl. rewrite list_insert_insert_eq.
    destruct (upload_worker ext s w) as [s1 w1]; simpl.
    rewrite run_with_threads. simpl. done.
Qed.

Lemma run_step (n : nat) (s : Sys) (w : Thread) :
  run ext (S n) (s, w) = run ext n (upload_worker ext s w).
Proof. done. Qed.

Lemma start_upload_launch (r : StartReq) (s : Sys) (file_path : string) (delay : Z) :
  sess_file_path (session s) = Some file_path ->
  status (upload_status s) <> "running" ->
  default (inr 2%Z) (r_delay r) = inr delay ->
  start_upload r s =
    (with_threads
       (threads s ++ [new_thread file_path (default false (r_headless r)) delay])
       (with_session
          (mkSession (Some file_path) (sess_product_count (session s))
                     (sess_image_paths (session s)) (sess_image_mappings (session s))
                     (Some (default "local" (r_image_mode r))))
          (with_events false false s)),
     Success "Upload started").
Proof.
  intros Hfile Hrun Hdelay. unfold start_upload. rewrite Hfile.
  destruct (String.eqb_spec (status (upload_status s)) "running"); [done|].
  rewrite Hdelay. simpl. by rewrite Hfile.
Qed.

Lemma run_parse_failure (s : Sys) (w : Thread) (msg : string) :
  pc w = L116 ->
  parse_file ext s (a_file_path w) = inl msg ->
  exists w',
    run ext 4 (s, w) =
      (with_status (append_error (mkError (RefStr "global") "Global Error" msg))
         (with_status (set_status "error") s), w') /\
    pc w' = Done /\ log w' = log w.
Proof.
  intros Hpc Hparse. destruct w; simpl in Hpc, Hparse; subst.
  rewrite run_step. unfold upload_worker at 1. cbn [pc a_file_path].
  rewrite Hparse. cbn. eauto.
Qed.

(** C5, as the code has it: Start is rejected at once, with the state
    untouched, only when the session holds no spreadsheet path.  When the
    session holds one and the file does not parse, Start is accepted and
    launches the task like any other; the parse error surfaces in the
    worker, which sets the state to error and appends one global record,
    leaving the counters alone, and returns without any outside effect. *)
Theorem start_upload_unparsable (r : StartReq) (s : Sys) :
  (sess_file_path (session s) = None ->
   start_upload r s = (s, Rejected 400 "No file has been uploaded yet")) /\
  (forall file_path delay msg,
     sess_file_path (session s) = Some file_path ->
     status (upload_status s) <> "running" ->
     default (inr 2%Z) (r_delay r) = inr delay ->
     parse_file ext s file_path = inl msg ->
     let tid := length (threads s) in
     let s' := exec ext [Start r; Tick tid; Tick tid; Tick tid; Tick tid] s in
     snd (start_upload r s) = Success "Upload started" /\
     length (threads (fst (start_upload r s))) = S (length (threads s)) /\
     upload_status s' =
       append_error (mkError (RefStr "global") "Global Error" msg)
                    (set_status "error" (upload_status s)) /\
     exists w, threads s' !! tid = Some w /\ pc w = Done /\ log w = []).
Proof.
  split.
  - intros H. unfold start_upload. by rewrite H.
  - intros file_path delay msg Hfile Hrun Hdelay Hparse tid s'.
    assert (Hstart : start_upload r s =
              (with_threads (threads s ++ [new_thread file_path (default false (r_headless r)) delay])
                 (with_session (mkSession (sess_file_path (session s)) (sess_product_count (session s))
                                  (sess_image_paths (session s)) (sess_image_mappings (session s))
                                  (Some (default "local" (r_image_mode r))))
                    (with_events false false s)),
               Success "Upload started")).
    { unfold start_upload. rewrite Hfile.
      destruct (String.eqb_spec (status (upload_status s)) "running"); [done|].
      rewrite Hdelay. simpl. by rewrite Hfile. }
    rewrite Hstart. simpl. split; [done|]. split; [rewrite length_app; simpl; lia|].
    subst s'. change [Start r; Tick tid; Tick tid; Tick tid; Tick tid]
      with (Start r :: replicate 4 (Tick tid)).
    cbn [exec step]. rewrite Hstart. cbn [fst].
    erewrite exec_ticks; last first.
    { cbn [threads with_threads]. subst tid. apply list_lookup_middle. done. }
    match goal with |- context [run ext 4 (?s1, ?w1)] =>
      destruct (run_parse_failure s1 w1 msg) as (w' & -> & Hpc & Hlog); [done|done|]
    end.
    cbn. split; [done|].
    exists w'. split; [|done].
    subst tid. apply list_lookup_insert_eq. rewrite length_app. simpl. lia.
Qed.
End Worker.

Lemma start_upload_unparsable_witness :
  status (upload_status
            (exec demo_ext [Start default_start; Tick 0; Tick 0; Tick 0; Tick 0]
                  (exec demo_ext [good_sheet; bad_sheet] initial))) = "error".
Proof.
  destruct (proj2 (start_upload_unparsable demo_ext default_start
                     (exec demo_ext [good_sheet; bad_sheet] initial))
                  "/tmp/sheets/items.csv" 2%Z "cannot parse")
    as (_ & _ & H & _).
  - vm_compute. reflexivity.
  - vm_compute. discriminate.
  - reflexivity.
  - vm_compute. reflexivity.
  - exact (f_equal status H).
Defined.

(** C5 fails as stated: a spreadsheet is uploaded, a second upload under
    the same name stores a file that does not parse, and Start is accepted
    all the same. *)
Lemma start_accepts_unparsable :
  ~ start_rejects_unparsable demo_ext default_start
      (exec demo_ext [good_sheet; bad_sheet] initial).
Proof.
  intros H. destruct H as (code & message & H); [vm_compute; reflexivity|].
  vm_compute in H. discriminate.
Qed.

Section Shipped.
Variable ext : Externals.

Lemma count_events_app (f : Event -> bool) (l1 l2 : list Event) :
  count_events f (l1 ++ l2) = count_events f l1 + count_events f l2.
Proof. induction l1 as [|ev l1 IH]; simpl; [done|]. rewrite IH. lia. Qed.

Lemma upload_worker_stub (s : Sys) (w : Thread) :
  stub_thread w ->
  stub_thread (snd (upload_worker ext s w)) /\
  current (upload_status (fst (upload_worker ext s w))) = current (upload_status s) /\
  success (upload_status (fst (upload_worker ext s w))) = success (upload_status s) /\
  failed (upload_status (fst (upload_worker ext s w))) = failed (upload_status s).
Proof.
  intros (Hpc & (Ha & Hm) & Hp & Hc). unfold stub_thread, upload_worker.
  destruct (pc w) eqn:E; try discriminate; simpl;
    repeat case_match; simpl; rewrite ?count_events_app, ?Hp, ?Hc; simpl;
    rewrite ?E; done.
Qed.

Lemma upload_file_frame (file : option (string * string)) (s : Sys) :
  upload_status (fst (upload_file ext file s)) = initial_status /\
  threads (fst (upload_file ext file s)) = threads s.
Proof.
  unfold upload_file. repeat case_match; done.
Qed.

Lemma step_stub_system (l : Label) (s : Sys) :
  stub_system s -> stub_system (fst (step ext l s)).
Proof.
  intros (Hc & Hs & Hf & Ht). destruct l as [file|r|r| | | | |tid]; simpl.
  - destruct (upload_file_frame file s) as (H1 & H2).
    unfold stub_system. rewrite H1, H2. done.
  - unfold start_upload. repeat case_match; simpl; try done.
    repeat split; try done. apply Forall_app. split; [done|].
    apply Forall_singleton. done.
  - unfold upload_image. repeat case_match; simpl; done.
  - done.
  - unfold pause_upload. case_match; done.
  - unfold resume_upload. case_match; done.
  - unfold stop_upload. case_match; done.
  - unfold tick. destruct (threads s !! tid) as [w|] eqn:E; [|done].
    assert (Hw : stub_thread w).
    { eapply Forall_lookup_1; eauto. }
    pose proof (upload_worker_stub s w Hw) as (Hw' & Hc' & Hs' & Hf').
    pose proof (upload_worker_threads ext s w) as Hth.
    destruct (upload_worker ext s w) as [s' w']. simpl in *.
    rewrite Hth. unfold stub_system. simpl.
    repeat split; try congruence. apply Forall_insert; done.
Qed.

Lemma exec_stub_system (tr : list Label) (s : Sys) :
  stub_system s -> stub_system (exec ext tr s).
Proof.
  revert s. induction tr as [|l tr IH]; intros s H; simpl; [done|].
  apply IH, step_stub_system, H.
Qed.

Lemma initial_stub_system : stub_system initial.
Proof. repeat split; done. Qed.


Lemma upload_worker_total (s : Sys) (w : Thread) :
  total (upload_status (fst (upload_worker ext s w))) = total (upload_status s) \/
  pc w = L117 /\
  total (upload_status (fst (upload_worker ext s w))) = length (v_products w).
Proof.
  unfold upload_worker. destruct (pc w); simpl; repeat case_match; simpl; auto.
Qed.

(** C7, as the code has it: every snapshot that GetStatus can return, after
    any schedule of requests and thread statements from the initial state,
    satisfies success + failed <= current <= total.  Total is not fixed at
    the start of a run; it changes in two places only: line 117 of a worker,
    its first write after parsing the spreadsheet, sets it to the number of
    parsed items, and the reset of the upload route sets it back to 0, also
    while a run is under way. *)
Theorem status_invariant (tr : list Label) :
  (exists st,
     snd (step ext GetStatus (exec ext tr initial)) = StatusJson st /\
     success st + failed st <= current st /\ current st <= total st) /\
  (forall l,
     let s := exec ext tr initial in
     let s' := fst (step ext l s) in
     total (upload_status s') = total (upload_status s) \/
     (exists tid w, l = Tick tid /\ threads s !! tid = Some w /\ pc w = L117 /\
                    total (upload_status s') = length (v_products w)) \/
     (exists file, l = Upload file /\ upload_status s' = initial_status)).
Proof.
  pose proof (exec_stub_system tr initial initial_stub_system) as (Hc & Hs & Hf & _).
  split.
  - eexists. split; [reflexivity|]. lia.
  - intros l s s'. subst s'. destruct l as [file|r|r| | | | |tid]; simpl.
    + right. right. exists file. split; [done|]. apply upload_file_frame.
    + left. unfold start_upload. repeat case_match; done.
    + left. unfold upload_image. repeat case_match; done.
    + by left.
    + left. unfold pause_upload. case_match; done.
    + left. unfold resume_upload. case_match; done.
    + left. unfold stop_upload. case_match; done.
    + unfold tick. destruct (threads s !! tid) as [w|] eqn:E; [|by left].
      pose proof (upload_worker_total s w) as H.
      destruct (upload_worker ext s w) as [s1 w1]. simpl in *.
      destruct H as [H|[H1 H2]]; [by left|]. right. left. eauto 10.
Qed.



(** C9, as the code has it.  The first accepted image upload of a session,
    for the original path p, stores the image under q, answers with q and
    leaves in the session the table that maps p to q and nothing else, in
    which p resolves to q; a path without an entry resolves to itself in
    any table.  No run reads the table: in every state that the process
    reaches no thread has the name [image_mappings] bound or has handed an
    item to the processor, and no statement of the worker changes the
    session. *)
Theorem first_mapping_recorded (r : ImageReq) (s s' : Sys) (q : string) :
  upload_image ext r s = (s', ImageOk q) ->
  sess_image_mappings (session s) = None ->
  (exists p name content,
     r_original_path r = Some p /\ r_image r = Some (name, content) /\
     q = path_join ext (IMAGES_FOLDER ext) (secure_filename ext name) /\
     files s' !! q = Some content /\
     sess_image_mappings (session s') = Some {[ p := q ]} /\
     resolve {[ p := q ]} p = q) /\
  (forall (m : gmap string string) u, m !! u = None -> resolve m u = u) /\
  (forall tr,
     Forall (fun w => v_image_mappings w = None /\
                      count_events is_process (log w) = 0)
            (threads (exec ext tr initial))) /\
  (forall s0 w0, session (fst (upload_worker ext s0 w0)) = session s0).
Proof.
  intros Hup Hnone. split; [|split; [|split]].
  - revert Hup. unfold upload_image.
    destruct (r_image r) as [[name content]|]; [|discriminate].
    destruct (String.eqb name ""); [discriminate|].
    destruct (negb _); [discriminate|].
    destruct (truthy (r_index r)); [|discriminate].
    destruct (r_original_path r) as [p|] eqn:Hp; simpl; [|discriminate].
    destruct (String.eqb p ""); [discriminate|].
    rewrite Hnone. intros [= <- <-]. exists p, name, content.
    do 3 (split; [done|]). split; [|split; [done|]].
    + cbn [files with_session with_file]. apply lookup_insert_eq.
    + unfold resolve. by rewrite lookup_singleton_eq.
  - intros m u Hu. unfold resolve. by rewrite Hu.
  - intros tr.
    pose proof (exec_stub_system tr initial initial_stub_system) as (_ & _ & _ & Ht).
    eapply Forall_impl; [exact Ht|]. intros w (_ & (_ & Hm) & Hp & _). done.
  - intros s0 w0. unfold upload_worker, parse_file.
    destruct (pc w0); simpl; repeat case_match; done.
Qed.








End Shipped.

(** What a stop request does to a started run: it is accepted while the
    worker sleeps at line 128, the signal stays set, and the worker ends the
    run in the state completed. *)
Example accepted_stop_run_completes :
  let s := exec demo_ext stop_during_run initial in
  nth 6 (responses demo_ext stop_during_run initial) Silent = Success "Upload stopped" /\
  upload_stop_event s = true /\
  map pc (threads s) = [Done] /\
  status (upload_status s) = "completed".
Proof. vm_compute. repeat split; reflexivity. Qed.

(** C7 fails as stated: total is not fixed at the start of the run.  The
    worker has published total = 3 and the state running; a request to the
    upload route without a file part resets the status, and the run ends
    with total = 0. *)
Lemma total_reset_during_run :
  ~ snapshot_claim demo_ext running_snapshot reset_and_finish.
Proof.
  intros (_ & _ & H). vm_compute in H. discriminate.
Qed.


Lemma first_mapping_recorded_witness :
  let r := mkImageReq (Some ("shirt.PNG", "bytes")) (Some "0") (Some "a.png") in
  let s' := fst (upload_image demo_ext r (fresh false false)) in
  sess_image_mappings (session s') = Some {[ "a.png" := "/tmp/images/shirt.PNG" ]}.
Proof.
  intros r s'.
  destruct (first_mapping_recorded demo_ext r (fresh false false) s'
              "/tmp/images/shirt.PNG") as ((p & name & content & Hp & _ & _ & _ & H & _) & _).
  - vm_compute. reflexivity.
  - vm_compute. reflexivity.
  - injection Hp as <-. exact H.
Defined.

(** C9 fails as stated: the image for the original path a.png is uploaded
    and stored, a run is started and finishes, and no thread ever holds a
    table in which a.png resolves to the stored path: the name
    [image_mappings] is not bound. *)
Lemma submitted_mapping_not_read :
  ~ resolver_maps demo_ext run_after_image "a.png" "/tmp/images/shirt.png".
Proof.
  intros (tid & w & m & Hw & Hm & _).
  pose proof (exec_stub_system demo_ext run_after_image initial initial_stub_system)
    as (_ & _ & _ & Ht).
  pose proof (Forall_lookup_1 _ _ _ _ Ht Hw) as (_ & (_ & Hnone) & _).
  congruence.
Qed.


(** One statement of symbolic execution of a run. *)
Ltac wsimpl :=
  cbn [pc goto raise emit set_products set_item set_product set_original_path
       a_file_path a_headless a_delay
       v_products v_next v_i v_product v_original_path v_e v_automation
       v_image_mappings log fst snd].
Ltac wstep := rewrite run_step; unfold upload_worker at 1; wsimpl.

Section Lifecycle.
Variable ext : Externals.

(** A label other than a tick of [tid] leaves thread [tid] as it is. *)
Lemma step_thread (l : Label) (tid : nat) (s : Sys) (w : Thread) :
  threads s !! tid = Some w ->
  threads (fst (step ext l s)) !! tid = Some w \/
  l = Tick tid /\
  threads (fst (step ext l s)) !! tid = Some (snd (upload_worker ext s w)).
Proof.
  intros Hw. destruct l as [file|r|r| | | | |t]; simpl.
  - left. destruct (upload_file_frame ext file s) as (_ & ->). done.
  - left. unfold start_upload. repeat case_match; simpl; try done.
    by apply lookup_app_l_Some.
  - left. unfold upload_image. repeat case_match; done.
  - by left.
  - left. unfold pause_upload. case_match; done.
  - left. unfold resume_upload. case_match; done.
  - left. unfold stop_upload. case_match; done.
  - destruct (decide (t = tid)) as [->|Hne].
    + right. split; [done|]. rewrite (tick_lookup ext _ _ _ Hw). simpl.
      apply list_lookup_insert_eq. by eapply lookup_lt_Some.
    + left. unfold tick. destruct (threads s !! t) as [wt|] eqn:Et; [|done].
      pose proof (upload_worker_threads ext s wt) as Hth.
      destruct (upload_worker ext s wt) as [s' wt']. simpl in *.
      rewrite Hth. by rewrite list_lookup_insert_ne.
Qed.

(** A property of a thread that every statement of the worker preserves
    holds of the thread after every schedule. *)
Lemma exec_thread_invariant (P : Thread -> Prop) (tr : list Label) (tid : nat)
    (s : Sys) (w : Thread) :
  (forall s0 w0, P w0 -> P (snd (upload_worker ext s0 w0))) ->
  threads s !! tid = Some w -> P w ->
  exists w', threads (exec ext tr s) !! tid = Some w' /\ P w'.
Proof.
  intros HP. revert s w. induction tr as [|l tr IH]; intros s w Hw H; simpl; [eauto|].
  destruct (step_thread l tid s w Hw) as [Hl|[_ Hl]]; eapply IH; eauto.
Qed.

Lemma upload_worker_close_inv (s : Sys) (w : Thread) :
  close_inv w -> close_inv (snd (upload_worker ext s w)).
Proof.
  unfold close_inv, upload_worker. destruct w as [? ? ? l ? ? ? ? ? ? a ? lg].
  simpl.
  destruct l; simpl; intros H;
    repeat (match goal with
            | |- context [match ?x with _ => _ end] =>
                match x with
                | pc _ => fail 1
                | _ => destruct x eqn:?
                end
            end; simpl);
    rewrite ?count_events_app; simpl;
    repeat match goal with Hc : _ /\ _ |- _ => destruct Hc end;
    try match goal with Hc : is_Some None |- _ => destruct Hc; discriminate end;
    repeat split; eauto; try lia.
Qed.

(** X25: the close of line 183, in the text of the loop.  A thread at the
    head of the loop with the processor bound and not yet closed calls close
    at most once under every schedule, and exactly once by the time it has
    returned: the loop is left by exhaustion or by the stop check, the
    failures of items and of the sleep are caught inside it, and line 183
    follows; when close itself raises, the handler of line 186 does not call
    it again. *)
Theorem loop_closes_once (tr : list Label) (s : Sys) (tid : nat) (w w' : Thread) :
  threads s !! tid = Some w ->
  pc w = L142 -> is_Some (v_automation w) ->
  count_events is_close (log w) = 0 ->
  threads (exec ext tr s) !! tid = Some w' ->
  count_events is_close (log w') <= 1 /\
  (pc w' = Done -> count_events is_close (log w') = 1).
Proof.
  intros Hw Hpc Ha Hc Hw'.
  destruct (exec_thread_invariant close_inv tr tid s w) as (w2 & Hw2 & H).
  - intros s0 w0. apply upload_worker_close_inv.
  - done.
  - unfold close_inv. rewrite Hpc. done.
  - rewrite Hw' in Hw2. injection Hw2 as <-.
    unfold close_inv in H. destruct (pc w'); try done;
      repeat match goal with Hx : _ /\ _ |- _ => destruct Hx end;
      split; try done; lia.
Qed.

End Lifecycle.

Lemma loop_closes_once_witness :
  exists w',
    threads (exec demo_ext stopped_run (local_sys [prodA; prodB; prodC] 0)) !! 0
      = Some w' /\
    pc w' = Done /\
    count_events is_process (log w') = 1 /\
    count_events is_close (log w') = 1.
Proof.
  eexists. split; [vm_compute; reflexivity|].
  split; [reflexivity|]. split; [reflexivity|].
  edestruct (loop_closes_once demo_ext stopped_run (local_sys [prodA; prodB; prodC] 0) 0)
    as (_ & H).
  - reflexivity.
  - reflexivity.
  - simpl. eauto.
  - reflexivity.
  - vm_compute. reflexivity.
  - apply H. reflexivity.
Defined.


Ltac ssimpl :=
  cbn [upload_status upload_pause_event upload_stop_event session files threads
       with_status with_events with_session with_file with_threads].

Section Runs.
Variable ext : Externals.

Lemma run_cons (n : nat) (s : Sys) (w : Thread) (x : Sys * Thread) :
  run ext n (upload_worker ext s w) = x -> run ext (S n) (s, w) = x.
Proof. done. Qed.

Lemma run_nil (x : Sys * Thread) : run ext 0 x = x.
Proof. done. Qed.

Lemma run_add (n1 n2 : nat) (x : Sys * Thread) :
  run ext (n1 + n2) x = run ext n2 (run ext n1 x).
Proof.
  revert x. induction n1 as [|n1 IH]; intros x; simpl; [done|]. apply IH.
Qed.

End Runs.

(** One statement of a run whose length is still to be found. *)
Ltac istep := eapply run_cons; unfold upload_worker at 1; wsimpl; ssimpl.

Section Loop.
Variable ext : Externals.

Lemma titles_insert (items : list Product) (j : nat) (p p' : Product) :
  items !! j = Some p -> p' !! "title" = p !! "title" ->
  titles (<[j := p']> items) = titles items.
Proof.
  intros Hj Ht. unfold titles. rewrite list_fmap_insert, Ht.
  apply list_insert_id. by rewrite list_lookup_fmap, Hj.
Qed.

Variables (a : Automation) (m : gmap string string) (k : nat) (e t : string)
          (tl : list (option string)).
Hypothesis fails_on_k : forall p, upload_product a k p = Some e.
Hypothesis succeeds_elsewhere : forall j p, j <> k -> upload_product a j p = None.
Hypothesis titled : Forall is_Some tl.
Hypothesis title_k : tl !! k = Some (Some t).

Lemma loop_iteration (j : nat) (s : Sys) (w : Thread) :
  j < length tl ->
  loop_inv a m k e t tl j s w ->
  exists n s' w',
    run ext n (s, w) = (s', w') /\
    loop_inv a m k e t tl (S j) s' w' /\
    total (upload_status s') = total (upload_status s).
Proof.
  intros Hj [Hpc Hnext Htitles Hpaths Ha Hm Hd Hcalls Hcl Hpause Hstop Hsu Hfa Her Hcu].
  destruct w as [fp hl dl l ps nx i0 p0 op0 e0 au im lg].
  simpl in Hpc, Hnext, Htitles, Hpaths, Ha, Hm, Hd, Hcalls, Hcl. subst l nx au im.
  assert (Hlen : length ps = length tl) by (rewrite <- Htitles; unfold titles; by rewrite length_map).
  destruct (lookup_lt_is_Some_2 ps j) as [p Hp]; [lia|].
  assert (Htp : exists tj, p !! "title" = Some tj /\ tl !! j = Some (Some tj)).
  { assert (H : tl !! j = Some (p !! "title")).
    { rewrite <- Htitles. unfold titles. by rewrite list_lookup_fmap, Hp. }
    destruct (p !! "title") as [tj|] eqn:E; [eauto|].
    eapply Forall_lookup_1 in titled; eauto. destruct titled; discriminate. }
  destruct Htp as (tj & Htj & Htlj).
  destruct (Forall_lookup_1 _ _ _ _ Hpaths Hp) as [path Hpath].
  assert (Hprefix : exists s1,
            run ext 7 (s, mkThread fp hl dl L142 ps j i0 p0 op0 e0 (Some a) (Some m) lg)
            = (s1, mkThread fp hl dl L160 ps (S j) j p path e0 (Some a) (Some m) lg) /\
            upload_status s1 = set_current_product tj
                                 (set_current (j + 1)
                                    (set_status "running" (upload_status s))) /\
            upload_pause_event s1 = false /\ upload_stop_event s1 = false).
  { eexists. split.
    - istep. rewrite Hp. istep. rewrite Hstop. istep. rewrite Hpause, Hstop.
      cbn [andb negb]. istep. istep. istep. unfold title_or_default. wsimpl. rewrite Htj.
      istep. rewrite Hpath. wsimpl. apply run_nil.
    - ssimpl. done. }
  destruct Hprefix as (s1 & Hrun1 & Hst1 & Hpause1 & Hstop1).
  assert (Hresolve : exists n2 ps' p',
            run ext n2 (s1, mkThread fp hl dl L160 ps (S j) j p path e0 (Some a) (Some m) lg)
            = (s1, mkThread fp hl dl L169 ps' (S j) j p' path e0 (Some a) (Some m) lg) /\
            p' !! "title" = Some tj /\ titles ps' = tl /\
            Forall (fun p : Product => is_Some (p !! "image_path")) ps').
  { destruct (m !! path) as [q|] eqn:Emap.
    - exists 3, (<[j := <["image_path" := q]> p]> ps), (<["image_path" := q]> p).
      assert (Ht' : <["image_path" := q]> p !! "title" = Some tj)
        by (by rewrite lookup_insert_ne).
      split; [|split; [done|split]].
      + istep. rewrite Emap, bool_decide_eq_true_2 by eauto.
        istep. rewrite Emap. wsimpl. istep. rewrite Ht'. wsimpl. apply run_nil.
      + rewrite <- Htitles. eapply titles_insert; [done|congruence].
      + apply Forall_insert; [done|]. rewrite lookup_insert_eq. eauto.
    - exists 2, ps, p. split; [|done].
      istep. rewrite Emap, bool_decide_eq_false_2 by (intros [? ?]; done).
      istep. rewrite Htj. wsimpl. apply run_nil. }
  destruct Hresolve as (n2 & ps' & p' & Hrun2 & Htj' & Htitles' & Hpaths').
  destruct (decide (j = k)) as [->|Hjk].
  - (* the failing item *)
    assert (tj = t) by congruence. subst tj.
    eexists (7 + (n2 + 4)), _, _. split; [|split].
    + rewrite !run_add, Hrun1, Hrun2. istep. rewrite Hcalls, fails_on_k. wsimpl.
      istep. istep. istep. apply run_nil.
    + constructor; wsimpl; ssimpl; rewrite ?Hst1; simpl; try done.
      * rewrite count_events_app. simpl. lia.
      * rewrite count_events_app. simpl. lia.
      * rewrite Hsu. destruct (Nat.ltb_spec k k), (Nat.ltb_spec k (S k)); lia.
      * rewrite Hfa. destruct (Nat.ltb_spec k k), (Nat.ltb_spec k (S k)); lia.
      * rewrite Her. destruct (Nat.ltb_spec k k), (Nat.ltb_spec k (S k)); try lia.
        unfold title_or_default. rewrite Htj'. done.
      * right. lia.
    + ssimpl. rewrite Hst1. done.
  - eexists (7 + (n2 + 3)), _, _. split; [|split].
    + rewrite !run_add, Hrun1, Hrun2. istep. rewrite Hcalls, succeeds_elsewhere by done.
      wsimpl. istep. istep. rewrite Hd. wsimpl. apply run_nil.
    + constructor; wsimpl; ssimpl; rewrite ?Hst1; simpl; try done.
      * rewrite !count_events_app. simpl. lia.
      * rewrite !count_events_app. simpl. lia.
      * rewrite Hsu. destruct (Nat.ltb_spec k j), (Nat.ltb_spec k (S j)); lia.
      * rewrite Hfa. destruct (Nat.ltb_spec k j), (Nat.ltb_spec k (S j)); lia.
      * rewrite Her. destruct (Nat.ltb_spec k j), (Nat.ltb_spec k (S j)); try lia; done.
      * right. lia.
    + ssimpl. rewrite Hst1. done.
Qed.

Lemma loop_completes (d j : nat) (s : Sys) (w : Thread) :
  j + d = length tl ->
  loop_inv a m k e t tl j s w ->
  exists n s' w',
    run ext n (s, w) = (s', w') /\
    loop_inv a m k e t tl (length tl) s' w' /\
    total (upload_status s') = total (upload_status s).
Proof.
  revert j s w. induction d as [|d IH]; intros j s w Hd H.
  - exists 0, s, w. replace (length tl) with j by lia. done.
  - destruct (loop_iteration j s w) as (n1 & s1 & w1 & Hrun1 & H1 & Ht1); [lia|done|].
    destruct (IH (S j) s1 w1) as (n2 & s2 & w2 & Hrun2 & H2 & Ht2); [lia|done|].
    exists (n1 + n2), s2, w2. rewrite run_add, Hrun1, Hrun2. split; [done|].
    split; [done|congruence].
Qed.

Lemma loop_exit (s : Sys) (w : Thread) :
  close a = None ->
  loop_inv a m k e t tl (length tl) s w ->
  exists w',
    run ext 3 (s, w) = (with_status (set_status "completed") s, w') /\
    pc w' = Done /\ log w' = (log w ++ [EClose])%list.
Proof.
  intros Hclose [Hpc Hnext Htitles Hpaths Ha Hm Hd Hcalls Hcl Hpause Hstop Hsu Hfa Her Hcu].
  destruct w as [fp hl dl l ps nx i0 p0 op0 e0 au im lg].
  simpl in Hpc, Hnext, Htitles, Ha, Hm. subst l nx au im.
  assert (Hnone : ps !! length tl = None).
  { apply lookup_ge_None_2. rewrite <- Htitles. unfold titles. rewrite length_map. lia. }
  eexists. split.
  { istep. rewrite Hnone. istep. rewrite Hclose. istep. apply run_nil. }
  split; reflexivity.
Qed.

(** X23: the loop of lines 142-181 isolates the failure of one item.
    Entered at its head with the names [automation] and [image_mappings]
    bound, neither signal set, a delay that [time.sleep] accepts, items that
    all carry a title and an image path, success and failed at 0 and an
    empty error log, and driven by a processor that fails on item k only and
    whose close returns, the run ends with the thread returned, failed = 1,
    success = n - 1, current = n, the state completed and an error log that
    holds exactly the record of item k (its 1-based number, its title and
    the message).  The processor has been called once for every item. *)
Theorem loop_isolates_failure (s : Sys) (w : Thread) :
  close a = None ->
  pc w = L142 -> v_next w = 0 -> titles (v_products w) = tl ->
  Forall (fun p : Product => is_Some (p !! "image_path")) (v_products w) ->
  v_automation w = Some a -> v_image_mappings w = Some m ->
  time_sleep (a_delay w) = None ->
  count_events is_process (log w) = 0 ->
  count_events is_close (log w) = 0 ->
  upload_pause_event s = false -> upload_stop_event s = false ->
  success (upload_status s) = 0 -> failed (upload_status s) = 0 ->
  errors (upload_status s) = [] ->
  exists n s' w',
    run ext n (s, w) = (s', w') /\ pc w' = Done /\
    isolates_failure (upload_status s') (length (v_products w)) k t /\
    errors (upload_status s') = [item_error k t e] /\
    current (upload_status s') = length (v_products w) /\
    total (upload_status s') = total (upload_status s) /\
    count_events is_process (log w') = length (v_products w).
Proof.
  intros Hclose Hpc Hnext Htitles Hpaths Ha Hm Hd Hcalls Hcl Hpause Hstop Hsu Hfa Her.
  assert (Hk : k < length tl) by (by eapply lookup_lt_Some).
  assert (Hlen : length (v_products w) = length tl).
  { rewrite <- Htitles. unfold titles. by rewrite length_map. }
  destruct (loop_completes (length tl) 0 s w) as (n1 & s1 & w1 & Hrun1 & H1 & Ht1).
  { done. }
  { constructor; try done. by left. }
  destruct (loop_exit s1 w1 Hclose H1) as (w2 & Hrun2 & Hdone & Hlog).
  destruct H1 as [_ _ _ _ _ _ _ Hcalls1 _ _ _ Hsu1 Hfa1 Her1 Hcu1].
  assert (Hlt : (k <? length tl)%nat = true) by (apply Nat.ltb_lt; lia).
  rewrite Hlt in Hsu1, Hfa1, Her1.
  exists (n1 + 3), (with_status (set_status "completed") s1), w2.
  rewrite run_add, Hrun1, Hrun2, Hlen. simpl.
  repeat split; try done.
  + exists (item_error k t e). done.
  + destruct Hcu1; lia.
  + rewrite Hlog, count_events_app, Hcalls1. simpl. lia.
Qed.

End Loop.


Lemma loop_isolates_failure_witness :
  exists n s' w',
    run demo_ext n
        (fresh false false,
         loop_thread [prodA; prodB; prodC] fails_on_second
                     {[ "a.png" := "/tmp/images/a.png" ]} 0) = (s', w') /\
    failed (upload_status s') = 1 /\ success (upload_status s') = 2 /\
    errors (upload_status s') = [mkError (RefNum 2) "B" "upload failed"].
Proof.
  destruct (loop_isolates_failure demo_ext fails_on_second
              {[ "a.png" := "/tmp/images/a.png" ]} 1 "upload failed" "B"
              [Some "A"; Some "B"; Some "C"]) with
    (s := fresh false false)
    (w := loop_thread [prodA; prodB; prodC] fails_on_second
                      {[ "a.png" := "/tmp/images/a.png" ]} 0)
    as (n & s' & w' & Hrun & _ & (Hf & Hs & _) & He & _).
  - intros p. reflexivity.
  - intros j p Hj. simpl. destruct (Nat.eqb_spec j 1); [lia|reflexivity].
  - repeat constructor; eauto.
  - reflexivity.
  - reflexivity.
  - reflexivity.
  - reflexivity.
  - vm_compute. reflexivity.
  - repeat constructor; vm_compute; eauto.
  - reflexivity.
  - reflexivity.
  - reflexivity.
  - reflexivity.
  - reflexivity.
  - reflexivity.
  - reflexivity.
  - reflexivity.
  - reflexivity.
  - reflexivity.
  - exists n, s', w'. split; [exact Hrun|]. split; [exact Hf|]. split; [exact Hs|exact He].
Defined.


(** Why the delay must be one that [time.sleep] accepts above: line 171
    sleeps inside the try of line 157, after line 170 has counted the
    success; when [time.sleep] raises, every uploaded item is counted as a
    failure too. *)
Example negative_delay_counts_twice :
  let r := run demo_ext 100
             (fresh false false,
              loop_thread [prodA; prodB; prodC] fails_on_second ∅ (-1)) in
  pc (snd r) = Done /\
  success (upload_status (fst r)) = 2 /\ failed (upload_status (fst r)) = 3 /\
  length (errors (upload_status (fst r))) = 3.
Proof. vm_compute. repeat split; reflexivity. Qed.

(** Why the counters must be 0 above: Start does not reset them, so the
    loop entered after an earlier run adds to what that run left. *)
Example second_run_adds_to_first :
  let r := run demo_ext 100
             (exec demo_ext one_run initial,
              loop_thread [prodA; prodB; prodC] fails_on_second ∅ 0) in
  pc (snd r) = Done /\
  failed (upload_status (fst r)) = 1 /\
  length (errors (upload_status (fst r))) = 2.
Proof. vm_compute. repeat split; reflexivity. Qed.

Section Stop.
Variable ext : Externals.

(** X24: the stop check in the text of the loop.  From line 144 with the
    stop signal set, the thread publishes the state stopped, leaves the loop
    without calling the processor or moving current, and then overwrites the
    state: with completed at line 184, or with error when the close of line
    183 raises or the name [automation] is not bound.  The state stopped of
    line 145 never outlives the run. *)
Theorem stop_check_leaves_loop (s : Sys) (w : Thread) :
  pc w = L144 -> upload_stop_event s = true ->
  exists n s' w',
    run ext n (s, w) = (s', w') /\ pc w' = Done /\
    status (upload_status (fst (run ext 2 (s, w)))) = "stopped" /\
    count_events is_process (log w') = count_events is_process (log w) /\
    current (upload_status s') = current (upload_status s) /\
    success (upload_status s') = success (upload_status s) /\
    failed (upload_status s') = failed (upload_status s) /\
    (status (upload_status s') = "completed" \/ status (upload_status s') = "error").
Proof.
  intros Hpc Hstop. destruct w as [fp hl dl l ps nx i0 p0 op0 e0 au im lg].
  simpl in Hpc. subst l.
  assert (H2 : status (upload_status
                 (fst (run ext 2 (s, mkThread fp hl dl L144 ps nx i0 p0 op0 e0 au im lg))))
               = "stopped").
  { rewrite run_step. unfold upload_worker at 1. wsimpl. rewrite Hstop. reflexivity. }
  destruct au as [a|]; [destruct (close a) as [msg|] eqn:Hclose|].
  - eexists 7, _, _. split.
    { istep. rewrite Hstop. istep. istep. istep. rewrite Hclose.
      istep. istep. istep. apply run_nil. }
    simpl. rewrite count_events_app. simpl.
    repeat split; try done; try lia. by right.
  - eexists 5, _, _. split.
    { istep. rewrite Hstop. istep. istep. istep. rewrite Hclose.
      istep. apply run_nil. }
    simpl. rewrite count_events_app. simpl.
    repeat split; try done; try lia. by left.
  - eexists 7, _, _. split.
    { istep. rewrite Hstop. istep. istep. istep. istep. istep. istep. apply run_nil. }
    simpl. repeat split; try done. by right.
Qed.

End Stop.

Lemma stop_check_leaves_loop_witness :
  exists n s' w',
    run demo_ext n (fresh false true,
                    item_thread L144 prodA (Some always_ok) (Some ∅) 0) = (s', w') /\
    pc w' = Done /\ count_events is_process (log w') = 0.
Proof.
  destruct (stop_check_leaves_loop demo_ext (fresh false true)
              (item_thread L144 prodA (Some always_ok) (Some ∅) 0))
    as (n & s' & w' & Hrun & Hdone & _ & Hp & _).
  - reflexivity.
  - vm_compute. reflexivity.
  - exists n, s', w'. split; [exact Hrun|]. split; [exact Hdone|exact Hp].
Defined.

(** C4, evaluated on three schedules.  Every Start below is accepted and
    two tasks are active afterwards: when the second Start arrives before
    the first worker has published the state running; when the status was
    reset by the upload route while the first worker sleeps at line 128;
    and, in the loop, when the first task has published the state paused. *)
Theorem start_accepted_while_active :
  (responses demo_ext race_starts initial =
     [UploadOk 3 ["a.png"; "b.png"; "c.png"];
      Success "Upload started"; Success "Upload started"] /\
   active_tasks (exec demo_ext race_starts initial) = 2) /\
  (last (responses demo_ext restart_after_upload initial)
     = Some (Success "Upload started") /\
   map pc (threads (exec demo_ext restart_after_upload initial)) = [L128; L116] /\
   active_tasks (exec demo_ext restart_after_upload initial) = 2) /\
  (let s0 := local_sys [prodA; prodB; prodC] 0 in
   last (responses demo_ext start_while_paused s0) = Some (Success "Upload started") /\
   map pc (threads (exec demo_ext start_while_paused s0)) = [L151; L116] /\
   status (upload_status (exec demo_ext start_while_paused s0)) = "paused" /\
   active_tasks (exec demo_ext start_while_paused s0) = 2).
Proof. vm_compute. repeat split; reflexivity. Qed.

(** * Further properties of the handlers and of the worker *)

Section FileNames.

Lemma rsplit_dot_no_dot (name : string) :
  has_dot name = false -> rsplit_dot name = None.
Proof.
  induction name as [|c rest IH]; simpl; [done|].
  intros H. apply orb_false_iff in H as [Hc Hrest].
  rewrite (IH Hrest), Hc. done.
Qed.

Lemma rsplit_dot_last (base ext : string) :
  has_dot ext = false -> rsplit_dot (base +:+ "." +:+ ext) = Some ext.
Proof.
  intros H. induction base as [|c base IH].
  - change (rsplit_dot (String "."%char ext) = Some ext).
    cbn [rsplit_dot]. rewrite (rsplit_dot_no_dot ext H). done.
  - change (rsplit_dot (String c (base +:+ "." +:+ ext)) = Some ext).
    cbn [rsplit_dot]. fold rsplit_dot. by rewrite IH.
Qed.

Lemma rsplit_dot_Some (name ext : string) :
  rsplit_dot name = Some ext ->
  exists base, name = base +:+ "." +:+ ext /\ has_dot ext = false.
Proof.
  revert ext. induction name as [|c rest IH]; simpl; intros ext H; [done|].
  destruct (rsplit_dot rest) as [e|] eqn:E.
  - injection H as ->. destruct (IH ext eq_refl) as (base & -> & Hd).
    exists (String c base). done.
  - destruct (Ascii.eqb_spec c "."%char) as [->|]; [|done].
    injection H as ->. exists "". split; [done|].
    clear IH. induction ext as [|c' e IH]; simpl in *; [done|].
    destruct (rsplit_dot e) eqn:E'; [done|].
    destruct (Ascii.eqb c' "."%char); [done|]. simpl. by apply IH.
Qed.

(** X1: a file name passes the check of lines 43-47 exactly when it
    contains a dot and the text after its last dot, in lower case, is one
    of the allowed extensions; what stands before the last dot plays no
    part. *)
Theorem allowed_file_last_extension (allowed : list string) (name : string) :
  allowed_file allowed name = true <->
  exists base ext,
    name = base +:+ "." +:+ ext /\ has_dot ext = false /\ lower ext ∈ allowed.
Proof.
  unfold allowed_file. split.
  - destruct (rsplit_dot name) as [ext|] eqn:E; [|done].
    intros H. apply bool_decide_eq_true in H.
    destruct (rsplit_dot_Some name ext E) as (base & -> & Hd). eauto.
  - intros (base & ext & -> & Hd & Hin). rewrite (rsplit_dot_last base ext Hd).
    by apply bool_decide_eq_true.
Qed.

End FileNames.

Section HandlerProperties.
Variable ext : Externals.

(** X2: an upload request without a file part, with an empty file name or
    with a name that fails the extension check is answered with 400; it
    resets the status and does nothing else: no file is stored and the
    session is left as it was. *)
Theorem upload_file_refused (file : option (string * string)) (s : Sys) :
  (file = None \/
   exists name content,
     file = Some (name, content) /\
     (name = "" \/ allowed_spreadsheet_file name = false)) ->
  fst (upload_file ext file s) = with_status (fun _ => initial_status) s /\
  exists message, snd (upload_file ext file s) = Rejected 400 message.
Proof.
  unfold upload_file. intros [->|(name & content & -> & H)]; [eauto|].
  destruct (String.eqb_spec name "") as [->|Hne]; [eauto|].
  destruct H as [H|H]; [done|]. rewrite H. simpl. eauto.
Qed.

(** X3: the uploaded file is stored before it is parsed.  When the parser
    raises, the answer is 500 with the parser's message, the session is
    left as it was, and the file stays stored under its path, over
    whatever was there. *)
Theorem upload_file_unparsable (name content msg : string) (s : Sys) :
  name <> "" ->
  allowed_spreadsheet_file name = true ->
  parse_spreadsheet ext content = inl msg ->
  upload_file ext (Some (name, content)) s =
    (with_file (path_join ext (SPREADSHEET_FOLDER ext) (secure_filename ext name))
               content (with_status (fun _ => initial_status) s),
     Rejected 500 ("Error processing spreadsheet: " +:+ msg)).
Proof.
  intros Hne Hal Hparse. unfold upload_file.
  destruct (String.eqb_spec name ""); [done|]. rewrite Hal. simpl.
  unfold parse_file. simpl. rewrite lookup_insert_eq, Hparse. done.
Qed.

(** X4: an accepted upload answers with the number of parsed records and
    their image paths in order; it has stored the file under the upload
    folder and the secured name, and the session now holds that path, the
    count and the paths, with the image mappings and the image mode as
    they were. *)
Theorem upload_file_accepted (name content : string) (s s' : Sys) (count : nat)
    (paths : list string) :
  upload_file ext (Some (name, content)) s = (s', UploadOk count paths) ->
  let path := path_join ext (SPREADSHEET_FOLDER ext) (secure_filename ext name) in
  exists products,
    parse_spreadsheet ext content = inr products /\
    count = length products /\ length paths = count /\
    Forall2 (fun (p : Product) q => p !! "image_path" = Some q) products paths /\
    files s' = <[path := content]> (files s) /\
    session s' = mkSession (Some path) (Some count) (Some paths)
                           (sess_image_mappings (session s))
                           (sess_image_mode (session s)).
Proof.
  unfold upload_file. destruct (String.eqb name ""); [discriminate|].
  destruct (negb _); [discriminate|].
  unfold parse_file. simpl. rewrite lookup_insert_eq.
  destruct (parse_spreadsheet ext content) as [msg|products]; [discriminate|].
  destruct (mapM _ products) as [image_paths|] eqn:E; [|discriminate].
  intros [= <- <- <-]. exists products. apply mapM_Some in E.
  repeat split; try done. symmetry. by eapply Forall2_length.
Qed.

(** X5: a spreadsheet in which some record has no image path is answered
    with 500, yet it has become the spreadsheet of the session: the file is
    stored and the session holds its path and its record count, beside the
    image paths of the upload before. *)
Theorem upload_file_missing_image_path (name content : string)
    (products : list Product) (s : Sys) :
  name <> "" ->
  allowed_spreadsheet_file name = true ->
  parse_spreadsheet ext content = inr products ->
  Exists (fun p : Product => p !! "image_path" = None) products ->
  let path := path_join ext (SPREADSHEET_FOLDER ext) (secure_filename ext name) in
  let s' := fst (upload_file ext (Some (name, content)) s) in
  snd (upload_file ext (Some (name, content)) s) =
    Rejected 500 "Error processing spreadsheet: 'image_path'" /\
  files s' !! path = Some content /\
  sess_file_path (session s') = Some path /\
  sess_product_count (session s') = Some (length products) /\
  sess_image_paths (session s') = sess_image_paths (session s).
Proof.
  intros Hne Hal Hparse Hex. unfold upload_file.
  destruct (String.eqb_spec name ""); [done|]. rewrite Hal. simpl.
  unfold parse_file. simpl. rewrite lookup_insert_eq, Hparse.
  destruct (mapM _ products) as [image_paths|] eqn:E.
  - apply mapM_Some in E. exfalso.
    apply Exists_exists in Hex as (p & Hin & Hp).
    apply list_elem_of_lookup in Hin as (i & Hi).
    destruct (Forall2_lookup_l _ _ _ _ _ E Hi) as (q & _ & Hq). congruence.
  - simpl. rewrite lookup_insert_eq. done.
Qed.

End HandlerProperties.

Section ControlSurface.
Variable ext : Externals.

(** X6: Start is accepted exactly when the session holds a spreadsheet
    path, the published state is not running and the delay of the request
    converts to an integer; it is then answered before any statement of the
    worker has run.  A Start that is not accepted, in particular one in the
    state running, leaves the whole process state as it was. *)
Theorem start_upload_accepted_iff (r : StartReq) (s : Sys) :
  (snd (start_upload r s) = Success "Upload started" <->
   is_Some (sess_file_path (session s)) /\
   status (upload_status s) <> "running" /\
   exists delay, default (inr 2%Z) (r_delay r) = inr delay) /\
  (snd (start_upload r s) <> Success "Upload started" ->
   fst (start_upload r s) = s).
Proof.
  unfold start_upload.
  destruct (sess_file_path (session s)) as [file_path|].
  2: { split; [|done]. split; [done|]. intros ([? ?] & _). done. }
  destruct (String.eqb_spec (status (upload_status s)) "running") as [Hr|Hr].
  { split; [|done]. split; [done|]. intros (_ & H & _). done. }
  destruct (default (inr 2%Z) (r_delay r)) as [msg|delay].
  { split; [|done]. split; [done|]. intros (_ & _ & d & H). done. }
  simpl. split; [|done]. split; [|done]. eauto.
Qed.

(** X7: Pause is accepted exactly in the state running, Resume exactly in
    the state paused and Stop exactly in the states running and paused.  An
    accepted Pause sets the pause signal, an accepted Resume clears it, an
    accepted Stop sets the stop signal and clears the pause signal; nothing
    else changes, and a refused request changes nothing at all. *)
Theorem control_requests (s : Sys) :
  (snd (pause_upload s) = Success "Upload paused" <->
   status (upload_status s) = "running") /\
  (snd (resume_upload s) = Success "Upload resumed" <->
   status (upload_status s) = "paused") /\
  (snd (stop_upload s) = Success "Upload stopped" <->
   status (upload_status s) = "running" \/ status (upload_status s) = "paused") /\
  fst (pause_upload s) =
    (if decide (status (upload_status s) = "running")
     then with_events true (upload_stop_event s) s else s) /\
  fst (resume_upload s) =
    (if decide (status (upload_status s) = "paused")
     then with_events false (upload_stop_event s) s else s) /\
  fst (stop_upload s) =
    (if decide (status (upload_status s) = "running" \/
                status (upload_status s) = "paused")
     then with_events false true s else s).
Proof.
  unfold pause_upload, resume_upload, stop_upload.
  assert (Hin : status (upload_status s) ∈ ["running"; "paused"] <->
                status (upload_status s) = "running" \/
                status (upload_status s) = "paused").
  { rewrite !elem_of_cons, elem_of_nil. tauto. }
  destruct (String.eqb_spec (status (upload_status s)) "running") as [Hr|Hr];
    destruct (String.eqb_spec (status (upload_status s)) "paused") as [Hp|Hp];
    try congruence;
    (destruct (bool_decide_reflect (status (upload_status s) ∈ ["running"; "paused"]))
       as [Hd|Hd]; [|try (exfalso; tauto)]);
    try (exfalso; tauto);
    simpl; repeat case_decide; try tauto; repeat split; try done; tauto.
Qed.

(** X8: an image upload is accepted exactly when the request has an image
    part with a non-empty name that passes the image extension check, and
    non-empty index and original-path fields.  A refused upload changes
    nothing.  No image upload touches the status, the signals or the
    threads, and the value of the index field plays no part. *)
Theorem upload_image_accepted_iff (r : ImageReq) (s : Sys) :
  ((exists q, snd (upload_image ext r s) = ImageOk q) <->
   (exists name content,
      r_image r = Some (name, content) /\ name <> "" /\
      allowed_image_file name = true) /\
   is_Some (truthy (r_index r)) /\ is_Some (truthy (r_original_path r))) /\
  ((forall q, snd (upload_image ext r s) <> ImageOk q) ->
   fst (upload_image ext r s) = s) /\
  upload_status (fst (upload_image ext r s)) = upload_status s /\
  upload_pause_event (fst (upload_image ext r s)) = upload_pause_event s /\
  upload_stop_event (fst (upload_image ext r s)) = upload_stop_event s /\
  threads (fst (upload_image ext r s)) = threads s /\
  (forall index,
     is_Some (truthy (r_index r)) -> is_Some (truthy (Some index)) ->
     upload_image ext (mkImageReq (r_image r) (Some index) (r_original_path r)) s =
     upload_image ext r s).
Proof.
  split; [|split].
  - unfold upload_image. split.
    + intros [q H]. destruct (r_image r) as [[name content]|]; [|done].
      destruct (String.eqb_spec name ""); [done|].
      destruct (allowed_image_file name) eqn:Hal; [|done]. simpl in H.
      destruct (truthy (r_index r)); [|done].
      destruct (truthy (r_original_path r)); [|done]. eauto 10.
    + intros ((name & content & -> & Hne & Hal) & [i ->] & [p ->]).
      destruct (String.eqb_spec name ""); [done|]. rewrite Hal. simpl.
      destruct (sess_image_mappings (session s)); simpl; eauto.
  - unfold upload_image. repeat case_match; try done;
      intros Hno; exfalso; by eapply Hno.
  - split; [|split; [|split; [|split]]];
      try (unfold upload_image; repeat case_match; done).
    intros index [i Hi] [j Hj]. unfold upload_image.
    cbn [r_image r_index r_original_path]. rewrite Hi, Hj. done.
Qed.

(** X9: what the session keeps of two image uploads.  The first accepted
    upload of a session creates the table, and its entry is saved with the
    session.  A second accepted upload writes into the table held under the
    key, which does not mark the session as modified: its image is stored
    and its answer carries the stored path, but the session still holds the
    table of the first upload alone, so the second original path has no
    entry.  When both names are secured to the same file name, the two
    images share one stored path and the file there is the second image. *)
Theorem upload_image_second_mapping (name1 name2 content1 content2 index1 index2
    original1 original2 : string) (s : Sys) :
  name1 <> "" -> name2 <> "" ->
  allowed_image_file name1 = true -> allowed_image_file name2 = true ->
  index1 <> "" -> index2 <> "" -> original1 <> "" -> original2 <> "" ->
  sess_image_mappings (session s) = None ->
  let r1 := mkImageReq (Some (name1, content1)) (Some index1) (Some original1) in
  let r2 := mkImageReq (Some (name2, content2)) (Some index2) (Some original2) in
  let s1 := fst (upload_image ext r1 s) in
  let s2 := fst (upload_image ext r2 s1) in
  let stored1 := path_join ext (IMAGES_FOLDER ext) (secure_filename ext name1) in
  let stored2 := path_join ext (IMAGES_FOLDER ext) (secure_filename ext name2) in
  snd (upload_image ext r1 s) = ImageOk stored1 /\
  snd (upload_image ext r2 s1) = ImageOk stored2 /\
  sess_image_mappings (session s2) = Some {[ original1 := stored1 ]} /\
  (original2 <> original1 ->
   default ∅ (sess_image_mappings (session s2)) !! original2 = None) /\
  files s2 !! stored2 = Some content2 /\
  (secure_filename ext name1 = secure_filename ext name2 ->
   files s2 !! stored1 = Some content2).
Proof.
  intros Hn1 Hn2 Ha1 Ha2 Hi1 Hi2 Ho1 Ho2 Hnone.
  unfold upload_image. simpl.
  destruct (String.eqb_spec name1 ""), (String.eqb_spec name2 ""); try done.
  rewrite Ha1, Ha2. simpl.
  destruct (String.eqb_spec index1 ""), (String.eqb_spec index2 ""); try done.
  destruct (String.eqb_spec original1 ""), (String.eqb_spec original2 ""); try done.
  simpl. rewrite Hnone. simpl. repeat split.
  - intros Hne. by rewrite lookup_insert_ne.
  - by rewrite lookup_insert_eq.
  - intros ->. by rewrite lookup_insert_eq.
Qed.

End ControlSurface.

Section Schedules.
Variable ext : Externals.

Lemma upload_worker_stub_status (s : Sys) (w : Thread) :
  stub_thread w -> stub_status (upload_status s) ->
  stub_status (upload_status (fst (upload_worker ext s w))).
Proof.
  intros (Hpc & _) (Hst & Her). unfold stub_status, upload_worker.
  destruct (pc w); try discriminate; simpl; repeat case_match; simpl;
    (split; [try done; rewrite !elem_of_cons; tauto|]);
    try done; apply Forall_app; (split; [done|]); apply Forall_singleton; auto.
Qed.

Lemma step_stub_status (l : Label) (s : Sys) :
  stub_system s -> stub_status (upload_status s) ->
  stub_status (upload_status (fst (step ext l s))).
Proof.
  intros (_ & _ & _ & Ht) H. destruct l as [file|r|r| | | | |tid]; simpl.
  - destruct (upload_file_frame ext file s) as (-> & _).
    split; [rewrite !elem_of_cons; tauto|constructor].
  - unfold start_upload. repeat case_match; done.
  - unfold upload_image. repeat case_match; done.
  - done.
  - unfold pause_upload. case_match; done.
  - unfold resume_upload. case_match; done.
  - unfold stop_upload. case_match; done.
  - unfold tick. destruct (threads s !! tid) as [w|] eqn:E; [|done].
    assert (Hw : stub_thread w) by (eapply Forall_lookup_1; eauto).
    pose proof (upload_worker_stub_status s w Hw H) as H'.
    destruct (upload_worker ext s w) as [s' w']. done.
Qed.

Lemma exec_stub_status (tr : list Label) (s : Sys) :
  stub_system s -> stub_status (upload_status s) ->
  stub_status (upload_status (exec ext tr s)).
Proof.
  revert s. induction tr as [|l tr IH]; intros s Hs H; simpl; [done|].
  apply IH; [by apply step_stub_system|by apply step_stub_status].
Qed.

Lemma initial_stub_status : stub_status (upload_status initial).
Proof. split; [simpl; rewrite !elem_of_cons; tauto|constructor]. Qed.

(** X10: whatever requests are served and however the threads are
    scheduled from the initial state, the published state is one of idle,
    running, completed and error, the four that the comment of line 24
    lists beside paused: it is never paused and never stopped, so a Resume
    request is refused after every schedule, and a Stop request is accepted
    exactly in the state running. *)
Theorem state_never_paused (tr : list Label) :
  let s := exec ext tr initial in
  status (upload_status s) ∈ ["idle"; "running"; "completed"; "error"] /\
  snd (step ext Resume s) = Rejected 400 "No paused upload to resume" /\
  (snd (step ext Stop s) = Success "Upload stopped" <->
   status (upload_status s) = "running").
Proof.
  intros s.
  destruct (exec_stub_status tr initial initial_stub_system initial_stub_status)
    as (H & _).
  fold s in H. split; [done|]. simpl. unfold resume_upload, stop_upload.
  rewrite !elem_of_cons, elem_of_nil in H.
  destruct (String.eqb_spec (status (upload_status s)) "paused") as [Hp|Hp].
  { rewrite Hp in H. exfalso. intuition discriminate. }
  split; [done|].
  destruct (bool_decide_reflect (status (upload_status s) ∈ ["running"; "paused"]))
    as [Hd|Hd]; rewrite !elem_of_cons, elem_of_nil in Hd; simpl.
  - split; [tauto|done].
  - split; [done|tauto].
Qed.

(** X11: after every schedule from the initial state the error log holds
    nothing but the "note" record of lines 121-125 and "global" records of
    the handler of lines 190-194; no item is ever recorded as failed. *)
Theorem error_log_entries (tr : list Label) :
  Forall (fun r => r = note_record \/
                   (product r = RefStr "global" /\ title r = "Global Error"))
         (errors (upload_status (exec ext tr initial))).
Proof.
  by destruct (exec_stub_status tr initial initial_stub_system initial_stub_status).
Qed.

Lemma step_threads_length (l : Label) (s : Sys) :
  length (threads (fst (step ext l s))) =
  length (threads s) +
  match l, snd (step ext l s) with
  | Start _, Success _ => 1
  | _, _ => 0
  end.
Proof.
  destruct l as [file|r|r| | | | |tid]; simpl.
  - destruct (upload_file_frame ext file s) as (_ & ->).
    destruct (snd (upload_file ext file s)); lia.
  - unfold start_upload. destruct (sess_file_path (session s)); [|simpl; lia].
    destruct (String.eqb _ _); [simpl; lia|].
    destruct (default _ (r_delay r)); simpl; [lia|].
    rewrite length_app. simpl. lia.
  - unfold upload_image. repeat case_match; simpl; lia.
  - lia.
  - unfold pause_upload. case_match; simpl; lia.
  - unfold resume_upload. case_match; simpl; lia.
  - unfold stop_upload. case_match; simpl; lia.
  - unfold tick. destruct (threads s !! tid) as [w|] eqn:E; [|lia].
    pose proof (upload_worker_threads ext s w) as Hth.
    destruct (upload_worker ext s w) as [s' w']. simpl in *.
    rewrite length_insert, Hth. lia.
Qed.

(** X12: threads are only ever added, one by each accepted Start: after any
    schedule the process has as many threads as it had before plus the
    number of Start requests it accepted.  No request and no statement of a
    worker removes or replaces a thread, a returned one included. *)
Theorem threads_count (tr : list Label) (s : Sys) :
  length (threads (exec ext tr s)) = length (threads s) + accepted_starts ext tr s.
Proof.
  revert s. induction tr as [|l tr IH]; intros s; cbn [exec accepted_starts]; [lia|].
  rewrite IH, step_threads_length. lia.
Qed.

Lemma upload_worker_session (s : Sys) (w : Thread) :
  session (fst (upload_worker ext s w)) = session s /\
  files (fst (upload_worker ext s w)) = files s.
Proof.
  unfold upload_worker, parse_file. destruct (pc w); simpl; repeat case_match; done.
Qed.

Lemma step_session_grows (l : Label) (s : Sys) :
  (is_Some (sess_file_path (session s)) ->
   is_Some (sess_file_path (session (fst (step ext l s))))) /\
  (forall p,
     is_Some (default ∅ (sess_image_mappings (session s)) !! p) ->
     is_Some (default ∅ (sess_image_mappings (session (fst (step ext l s)))) !! p)).
Proof.
  destruct l as [file|r|r| | | | |tid]; simpl.
  - unfold upload_file. repeat case_match; simpl; split; eauto.
  - unfold start_upload.
    destruct (sess_file_path (session s)) eqn:Hfile;
      [|simpl; split; [intros [? ?]; done|done]].
    destruct (String.eqb _ _); [simpl; rewrite ?Hfile; done|].
    destruct (default _ (r_delay r)); simpl; rewrite ?Hfile; done.
  - unfold upload_image.
    destruct (r_image r) as [[name content]|]; [|done].
    destruct (String.eqb name ""); [done|].
    destruct (negb _); [done|].
    destruct (truthy (r_index r)); [|done].
    destruct (truthy (r_original_path r)) as [original|]; [|done].
    simpl. destruct (sess_image_mappings (session s)) as [table|] eqn:Htable;
      simpl; rewrite ?Htable; simpl; split; try done.
    intros p [q Hp]. by rewrite lookup_empty in Hp.
  - done.
  - unfold pause_upload. case_match; done.
  - unfold resume_upload. case_match; done.
  - unfold stop_upload. case_match; done.
  - unfold tick. destruct (threads s !! tid) as [w|] eqn:E; [|done].
    pose proof (upload_worker_session s w) as (Hs & _).
    destruct (upload_worker ext s w) as [s' w']. simpl in *. by rewrite Hs.
Qed.

(** X13: the session only grows.  Once it holds a spreadsheet path it holds
    one after every schedule, so Start never again answers that no file has
    been uploaded; and an original image path that has a mapping keeps one,
    whatever is uploaded later.  Nothing in the program forgets a
    spreadsheet or a mapping. *)
Theorem session_only_grows (tr : list Label) (s : Sys) :
  (is_Some (sess_file_path (session s)) ->
   is_Some (sess_file_path (session (exec ext tr s)))) /\
  (forall p,
     is_Some (default ∅ (sess_image_mappings (session s)) !! p) ->
     is_Some (default ∅ (sess_image_mappings (session (exec ext tr s))) !! p)).
Proof.
  revert s. induction tr as [|l tr IH]; intros s; simpl; [done|].
  destruct (step_session_grows l s) as (H1 & H2).
  destruct (IH (fst (step ext l s))) as (H3 & H4). split; eauto.
Qed.

(** X14: upload, start and the first statements of the worker compose.
    Right after an accepted upload that reported [count] records, a Start
    whose delay converts is accepted whatever the state was before the
    upload (the upload has reset it to idle), and after the first three
    statements of the new thread the status is the reset one with total set
    to that same count and the state running. *)
Theorem upload_then_start (name content : string) (r : StartReq) (s s1 : Sys)
    (count : nat) (paths : list string) (delay : Z) :
  upload_file ext (Some (name, content)) s = (s1, UploadOk count paths) ->
  default (inr 2%Z) (r_delay r) = inr delay ->
  let tid := length (threads s1) in
  snd (start_upload r s1) = Success "Upload started" /\
  upload_status (exec ext [Start r; Tick tid; Tick tid; Tick tid] s1) =
    set_status "running" (set_total count initial_status).
Proof.
  intros Hup Hdelay tid.
  set (path := path_join ext (SPREADSHEET_FOLDER ext) (secure_filename ext name)).
  assert (H : exists products,
            parse_file ext s1 path = inr products /\ count = length products /\
            sess_file_path (session s1) = Some path /\
            upload_status s1 = initial_status).
  { revert Hup. unfold upload_file. destruct (String.eqb name ""); [discriminate|].
    destruct (negb _); [discriminate|]. fold path.
    destruct (parse_file ext _ path) as [msg|products] eqn:Hparse; [discriminate|].
    destruct (mapM _ products) as [image_paths|]; [|discriminate].
    intros [= <- <- <-]. exists products. unfold parse_file in *. simpl in *. done. }
  destruct H as (products & Hparse & -> & Hfile & Hst).
  assert (Hrun : status (upload_status s1) <> "running") by (by rewrite Hst).
  rewrite (start_upload_launch r s1 path delay Hfile Hrun Hdelay).
  split; [done|].
  change [Start r; Tick tid; Tick tid; Tick tid] with (Start r :: replicate 3 (Tick tid)).
  cbn [exec step]. rewrite (start_upload_launch r s1 path delay Hfile Hrun Hdelay).
  cbn [fst].
  erewrite exec_ticks; last first.
  { cbn [threads with_threads]. subst tid. apply list_lookup_middle. done. }
  cbn [upload_status with_threads]. unfold new_thread.
  wstep. unfold parse_file in *. ssimpl. rewrite Hparse. wsimpl.
  cbn. by rewrite Hst.
Qed.

End Schedules.

Section Sleep.

Lemma time_sleep_returns (d : Z) :
  (0 <= d < 9223372037)%Z -> time_sleep d = None.
Proof.
  intros Hd. unfold time_sleep.
  destruct (Z.leb_spec d (-9223372037)), (Z.leb_spec 9223372037 d),
           (Z.ltb_spec d 0); simpl; try lia; done.
Qed.

Lemma time_sleep_raises (d : Z) :
  (d < 0 \/ 9223372037 <= d)%Z ->
  exists e, time_sleep d = Some e /\
            ((-9223372037 < d < 0)%Z -> e = "sleep length must be non-negative").
Proof.
  intros Hd. unfold time_sleep.
  destruct (Z.leb_spec d (-9223372037)), (Z.leb_spec 9223372037 d),
           (Z.ltb_spec d 0); simpl; try lia; eexists; (split; [done|]); intros; try done; lia.
Qed.

End Sleep.

Section Items.
Variable ext : Externals.

(** The body of the loop from line 153 for an item that has both keys, with
    both names bound (which no statement of the source does: the threads
    here are written down by hand): the record reaches the processor with
    its image path substituted, and the three outcomes are the return of the
    processor followed by the sleep, the return followed by a sleep that
    raises, and the exception of the processor. *)
Lemma body_run (s : Sys) (w : Thread) (a : Automation) (m : gmap string string)
    (tj path : string) :
  pc w = L153 ->
  v_product w !! "title" = Some tj ->
  v_product w !! "image_path" = Some path ->
  v_automation w = Some a ->
  v_image_mappings w = Some m ->
  let p' := substituted m (v_product w) in
  let st1 := item_started w (upload_status s) in
  exists n s' w',
    run ext n (s, w) = (s', w') /\
    pc w' = L142 /\ v_next w' = v_next w /\ v_i w' = v_i w /\
    match upload_product a (count_events is_process (log w)) p' with
    | Some e =>
        upload_status s' = append_error (item_error (v_i w) tj e) (incr_failed st1) /\
        log w' = (log w ++ [EProcess p'])%list
    | None =>
        match time_sleep (a_delay w) with
        | Some e =>
            upload_status s' =
              append_error (item_error (v_i w) tj e) (incr_failed (incr_success st1)) /\
            log w' = (log w ++ [EProcess p'])%list
        | None =>
            upload_status s' = incr_success st1 /\
            log w' = (log w ++ [EProcess p'; ESleep (a_delay w)])%list
        end
    end.
Proof.
  intros Hpc Htj Hpath Ha Hm p' st1. subst p' st1.
  destruct w as [fp hl dl l ps nx i0 p op0 e0 au im lg].
  cbn [pc v_product v_automation v_image_mappings] in Hpc, Htj, Hpath, Ha, Hm.
  subst l au im.
  unfold item_started, title_or_default, substituted.
  cbn [v_product v_i v_next log a_delay]. rewrite Htj, Hpath.
  set (p' := match m !! path with
             | Some uploaded => <["image_path" := uploaded]> p
             | None => p
             end).
  assert (Hp' : p' !! "title" = Some tj).
  { subst p'. destruct (m !! path); [by rewrite lookup_insert_ne|done]. }
  assert (Hto : exists n ps',
            run ext n (s, mkThread fp hl dl L153 ps nx i0 p op0 e0 (Some a) (Some m) lg)
            = (with_status (fun st => set_current_product tj
                                        (set_current (i0 + 1) (set_status "running" st))) s,
               mkThread fp hl dl L169 ps' nx i0 p' path e0 (Some a) (Some m) lg)).
  { subst p'. destruct (m !! path) as [q|] eqn:Emap.
    - eexists 7, _. istep. istep. istep. unfold title_or_default. wsimpl. rewrite Htj.
      istep. rewrite Hpath. istep. rewrite Emap, bool_decide_eq_true_2 by eauto.
      istep. rewrite Emap. wsimpl. istep. rewrite Hp'. wsimpl. apply run_nil.
    - eexists 6, _. istep. istep. istep. unfold title_or_default. wsimpl. rewrite Htj.
      istep. rewrite Hpath. istep.
      rewrite Emap, bool_decide_eq_false_2 by (intros [? ?]; done).
      istep. rewrite Htj. wsimpl. apply run_nil. }
  destruct Hto as (n1 & ps' & Hrun1). simpl.
  destruct (upload_product a (count_events is_process lg) p') as [e|] eqn:Hout.
  - eexists (n1 + 4), _, _. split.
    { rewrite run_add, Hrun1. istep. rewrite Hout. wsimpl. istep. istep. istep.
      apply run_nil. }
    simpl. unfold title_or_default. rewrite Hp'. done.
  - destruct (time_sleep dl) as [e|] eqn:Hd.
    + eexists (n1 + 6), _, _. split.
      { rewrite run_add, Hrun1. istep. rewrite Hout. wsimpl. istep. istep.
        rewrite Hd. wsimpl. istep. istep. istep. apply run_nil. }
      simpl. unfold title_or_default. rewrite Hp'. done.
    + eexists (n1 + 3), _, _. split.
      { rewrite run_add, Hrun1. istep. rewrite Hout. wsimpl. istep. istep.
        rewrite Hd. wsimpl. apply run_nil. }
      simpl. rewrite <- app_assoc. done.
Qed.

(** X15: once the checks of lines 144 and 149 are passed, an item that has
    a title and an image path is handed to the processor with its image
    path replaced by the uploaded one when the table has it.  When the
    processor returns and the delay is one that [time.sleep] accepts (from 0
    to 9223372036 seconds), success goes up by one, current is the 1-based number of the item, the state is running,
    and the thread sleeps for the delay before it is back at the head of the
    loop; the signals play no part in between. *)
Theorem item_uploaded (s : Sys) (w : Thread) (a : Automation)
    (m : gmap string string) (tj path : string) :
  pc w = L153 ->
  v_product w !! "title" = Some tj ->
  v_product w !! "image_path" = Some path ->
  v_automation w = Some a ->
  v_image_mappings w = Some m ->
  upload_product a (count_events is_process (log w)) (substituted m (v_product w)) = None ->
  (0 <= a_delay w < 9223372037)%Z ->
  exists n s' w',
    run ext n (s, w) = (s', w') /\ pc w' = L142 /\ v_next w' = v_next w /\
    upload_status s' = incr_success (item_started w (upload_status s)) /\
    log w' = (log w ++ [EProcess (substituted m (v_product w)); ESleep (a_delay w)])%list.
Proof.
  intros Hpc Htj Hpath Ha Hm Hout Hd.
  destruct (body_run s w a m tj path Hpc Htj Hpath Ha Hm)
    as (n & s' & w' & Hrun & Hpc' & Hnext & _ & H).
  rewrite Hout, (time_sleep_returns _ Hd) in H.
  destruct H as (H1 & H2). exists n, s', w'. done.
Qed.

(** X16: when the processor raises on the item, failed goes up by one,
    success is left alone, one record with the 1-based number of the item,
    its title and the text of the exception is appended to the error log,
    and the thread is back at the head of the loop without having slept:
    the delay of line 171 is skipped after a failure. *)
Theorem item_failure_recorded (s : Sys) (w : Thread) (a : Automation)
    (m : gmap string string) (tj path e : string) :
  pc w = L153 ->
  v_product w !! "title" = Some tj ->
  v_product w !! "image_path" = Some path ->
  v_automation w = Some a ->
  v_image_mappings w = Some m ->
  upload_product a (count_events is_process (log w)) (substituted m (v_product w)) = Some e ->
  exists n s' w',
    run ext n (s, w) = (s', w') /\ pc w' = L142 /\ v_next w' = v_next w /\
    upload_status s' =
      append_error (item_error (v_i w) tj e)
                   (incr_failed (item_started w (upload_status s))) /\
    log w' = (log w ++ [EProcess (substituted m (v_product w))])%list.
Proof.
  intros Hpc Htj Hpath Ha Hm Hout.
  destruct (body_run s w a m tj path Hpc Htj Hpath Ha Hm)
    as (n & s' & w' & Hrun & Hpc' & Hnext & _ & H).
  rewrite Hout in H. destruct H as (H1 & H2). exists n, s', w'. done.
Qed.

(** X17: the delay is slept inside the try of line 157, after the success
    has been counted.  When [time.sleep] raises on the delay, an item that
    the processor has uploaded is counted as a success and as a failure,
    with an error record that carries the text of the exception of the
    sleep.  It raises with "sleep length must be non-negative" for a delay
    from -9223372036 to -1, and with an overflow error for a delay of
    9223372037 seconds or more and for one of -9223372037 or less. *)
Theorem bad_delay_counts_item_twice (s : Sys) (w : Thread) (a : Automation)
    (m : gmap string string) (tj path : string) :
  pc w = L153 ->
  v_product w !! "title" = Some tj ->
  v_product w !! "image_path" = Some path ->
  v_automation w = Some a ->
  v_image_mappings w = Some m ->
  upload_product a (count_events is_process (log w)) (substituted m (v_product w)) = None ->
  (a_delay w < 0 \/ 9223372037 <= a_delay w)%Z ->
  exists n s' w' e,
    run ext n (s, w) = (s', w') /\ pc w' = L142 /\
    time_sleep (a_delay w) = Some e /\
    ((-9223372037 < a_delay w < 0)%Z -> e = "sleep length must be non-negative") /\
    success (upload_status s') = success (upload_status s) + 1 /\
    failed (upload_status s') = failed (upload_status s) + 1 /\
    errors (upload_status s') =
      (errors (upload_status s) ++ [item_error (v_i w) tj e])%list /\
    log w' = (log w ++ [EProcess (substituted m (v_product w))])%list.
Proof.
  intros Hpc Htj Hpath Ha Hm Hout Hd.
  destruct (body_run s w a m tj path Hpc Htj Hpath Ha Hm)
    as (n & s' & w' & Hrun & Hpc' & Hnext & _ & H).
  rewrite Hout in H.
  destruct (time_sleep_raises _ Hd) as (e & He & Hmsg). rewrite He in H.
  destruct H as (H1 & H2). exists n, s', w', e. rewrite H1. done.
Qed.

(** X18: an item that lacks a key never reaches the processor.  Without an
    image path line 159 raises; with one but without a title the log
    message of lines 163 and 166 raises, although lines 155 and 178 supply
    a default title.  Either way failed goes up by one and the record
    carries the title, or "Product" and the 1-based number, and the name of
    the missing key. *)
Theorem item_with_missing_key (s : Sys) (w : Thread) :
  pc w = L153 ->
  (v_product w !! "image_path" = None \/
   v_product w !! "title" = None /\ is_Some (v_image_mappings w)) ->
  exists n s' w',
    run ext n (s, w) = (s', w') /\ pc w' = L142 /\ v_next w' = v_next w /\
    upload_status s' =
      append_error
        (item_error (v_i w) (title_or_default (v_product w) (v_i w))
           (if decide (v_product w !! "image_path" = None)
            then "'image_path'" else "'title'"))
        (incr_failed (item_started w (upload_status s))) /\
    log w' = log w.
Proof.
  intros Hpc H. destruct w as [fp hl dl l ps nx i0 p op0 e0 au im lg].
  cbn [pc v_product v_image_mappings] in Hpc, H. subst l.
  unfold item_started. cbn [v_product v_i v_next log].
  destruct (p !! "image_path") as [path|] eqn:Hpath.
  - destruct H as [H|(Ht & [m ->])]; [done|].
    rewrite decide_False by done.
    assert (Hd : title_or_default p i0 = "Product " +:+ pretty (i0 + 1))
      by (unfold title_or_default; by rewrite Ht).
    destruct (m !! path) as [q|] eqn:Emap.
    + eexists 10, _, _. split.
      { istep. istep. istep. istep. rewrite Hpath. istep.
        rewrite Emap, bool_decide_eq_true_2 by eauto.
        istep. rewrite Emap. wsimpl. istep. rewrite lookup_insert_ne, Ht by done.
        wsimpl. istep. istep. istep. apply run_nil. }
      simpl. unfold title_or_default. rewrite lookup_insert_ne, Ht by done. done.
    + eexists 9, _, _. split.
      { istep. istep. istep. istep. rewrite Hpath. istep.
        rewrite Emap, bool_decide_eq_false_2 by (intros [? ?]; done).
        istep. rewrite Ht. wsimpl. istep. istep. istep. apply run_nil. }
      simpl. done.
  - rewrite decide_True by done. eexists 7, _, _. split.
    { istep. istep. istep. istep. rewrite Hpath. wsimpl. istep. istep. istep.
      apply run_nil. }
    simpl. done.
Qed.

(** X19: the loop as the file has it, with the two set-up statements of
    lines 136 and 139 left as comments.  The name [image_mappings] is not
    bound, so an item with an image path fails at line 160 and never reaches
    the processor; and the name [automation] is not bound, so the close of
    line 183 raises into the outer handler, which ends the run in the state
    error with one more global record. *)
Theorem loop_with_unbound_names (s : Sys) (w : Thread) :
  v_image_mappings w = None -> v_automation w = None ->
  (pc w = L153 -> is_Some (v_product w !! "image_path") ->
   exists n s' w',
     run ext n (s, w) = (s', w') /\ pc w' = L142 /\
     upload_status s' =
       append_error
         (item_error (v_i w) (title_or_default (v_product w) (v_i w))
                     "name 'image_mappings' is not defined")
         (incr_failed (item_started w (upload_status s))) /\
     log w' = log w) /\
  (pc w = L183 ->
   exists s' w',
     run ext 4 (s, w) = (s', w') /\ pc w' = Done /\
     upload_status s' =
       append_error (mkError (RefStr "global") "Global Error"
                             "name 'automation' is not defined")
                    (set_status "error" (upload_status s)) /\
     log w' = log w).
Proof.
  intros Hm Ha. destruct w as [fp hl dl l ps nx i0 p op0 e0 au im lg].
  cbn [pc v_product v_image_mappings v_automation] in *. subst au im.
  unfold item_started. cbn [v_product v_i log]. split.
  - intros -> [path Hpath]. eexists 8, _, _. split.
    { istep. istep. istep. istep. rewrite Hpath. istep. istep. istep. istep.
      apply run_nil. }
    simpl. done.
  - intros ->. eexists _, _. split.
    { istep. istep. istep. istep. apply run_nil. }
    simpl. done.
Qed.

End Items.

Section LoopInvariant.
Variable ext : Externals.

Lemma quiet_step_status (tid : nat) (l : Label) (s : Sys) :
  quiet tid l = true -> (forall t, l <> Tick t) ->
  upload_status (fst (step ext l s)) = upload_status s.
Proof.
  intros Hq Hl. destruct l as [file|r|r| | | | |t]; simpl in Hq; try discriminate; simpl.
  - unfold start_upload. repeat case_match; done.
  - done.
  - unfold pause_upload. case_match; done.
  - unfold resume_upload. case_match; done.
  - unfold stop_upload. case_match; done.
  - by destruct (Hl t).
Qed.

(** A relation between the status and a thread that every statement of the
    worker preserves holds after every schedule made of the statements of
    that thread and of requests that leave the status alone. *)
Lemma exec_quiet_invariant (P : Status -> Thread -> Prop) (tid : nat)
    (tr : list Label) (s : Sys) (w : Thread) :
  (forall s0 w0, P (upload_status s0) w0 ->
                 P (upload_status (fst (upload_worker ext s0 w0)))
                   (snd (upload_worker ext s0 w0))) ->
  forallb (quiet tid) tr = true ->
  threads s !! tid = Some w -> P (upload_status s) w ->
  exists w', threads (exec ext tr s) !! tid = Some w' /\
             P (upload_status (exec ext tr s)) w'.
Proof.
  intros HP. revert s w. induction tr as [|l tr IH]; intros s w Hq Hw H; simpl; [eauto|].
  simpl in Hq. apply andb_true_iff in Hq as [Hl Hq].
  assert (Hcase : l = Tick tid \/ forall t, l <> Tick t).
  { destruct l as [file|r|r| | | | |t]; simpl in Hl; try (right; intros t0; discriminate).
    left. apply bool_decide_eq_true in Hl. by subst. }
  destruct Hcase as [->|Hne].
  - eapply IH; [done| |].
    + simpl. rewrite (tick_lookup ext _ _ _ Hw). simpl.
      apply list_lookup_insert_eq. by eapply lookup_lt_Some.
    + simpl. rewrite (tick_lookup ext _ _ _ Hw). simpl. by apply HP.
  - destruct (step_thread ext l tid s w Hw) as [Hstep|[-> _]]; [|by destruct (Hne tid)].
    eapply IH; [done|exact Hstep|].
    by rewrite (quiet_step_status tid l s Hl Hne).
Qed.

Lemma upload_worker_loop_counts (s : Sys) (w : Thread) :
  loop_counts (upload_status s) w ->
  loop_counts (upload_status (fst (upload_worker ext s w))) (snd (upload_worker ext s w)).
Proof.
  unfold loop_counts, upload_worker.
  destruct w as [fp hl dl l ps nx i0 p op0 e0 au im lg]. simpl.
  intros (Ht & Hd & H).
  destruct l; simpl in H; try done;
    repeat (match goal with
            | |- context [match ?x with _ => _ end] =>
                match x with
                | pc _ => fail 1
                | _ => destruct x eqn:?
                end
            end; simpl);
    simpl; rewrite ?length_insert;
    repeat match goal with
           | Hl : _ !! _ = Some _ |- _ => apply lookup_lt_Some in Hl
           | Hc : _ /\ _ |- _ => destruct Hc
           end;
    repeat split; try done; try congruence; try lia.
Qed.

(** X20: the invariant of the status, for the loop.  A thread enters the
    loop at line 142 with a delay that [time.sleep] accepts (from 0 to
    9223372036 seconds), total equal to the
    number of its items and current, success and failed at 0.  Under every
    schedule made of its own statements and of start, status, pause, resume
    and stop requests, every snapshot satisfies
    success + failed <= current <= total, and total does not change. *)
Theorem loop_status_invariant (tr : list Label) (tid : nat) (s : Sys) (w : Thread) :
  forallb (quiet tid) tr = true ->
  threads s !! tid = Some w ->
  pc w = L142 -> v_next w = 0 -> (0 <= a_delay w < 9223372037)%Z ->
  total (upload_status s) = length (v_products w) ->
  current (upload_status s) = 0 ->
  success (upload_status s) = 0 ->
  failed (upload_status s) = 0 ->
  let st := upload_status (exec ext tr s) in
  success st + failed st <= current st /\ current st <= total st /\
  total st = total (upload_status s).
Proof.
  intros Hq Hw Hpc Hnext Hd Ht Hc Hs Hf st.
  destruct (exec_quiet_invariant
              (fun st0 w0 => loop_counts st0 w0 /\
                             length (v_products w0) = length (v_products w))
              tid tr s w) as (w' & _ & (Htot & _ & H) & Hlen); try done.
  - intros s0 w0 (H0 & Hl0). split; [by apply upload_worker_loop_counts|].
    rewrite <- Hl0. destruct H0 as (_ & _ & H0). unfold upload_worker.
    destruct w0 as [? ? ? l ? ? ? ? ? ? ? ? ?].
    destruct l; simpl in H0; try done; simpl; repeat case_match; simpl;
      rewrite ?length_insert; done.
  - split; [|done]. unfold loop_counts. rewrite Hpc, Hnext.
    repeat split; try done; try lia. by apply time_sleep_returns.
  - fold st in Htot, H. rewrite Hlen in Htot.
    destruct (pc w'); try done; lia.
Qed.

End LoopInvariant.

Section Pausing.
Variable ext : Externals.

Lemma wait_step (s : Sys) (w : Thread) :
  waiting (pc w) = true ->
  upload_pause_event s = true -> upload_stop_event s = false ->
  let s' := fst (upload_worker ext s w) in
  let w' := snd (upload_worker ext s w) in
  waiting (pc w') = true /\
  upload_pause_event s' = true /\ upload_stop_event s' = false /\
  v_i w' = v_i w /\ v_next w' = v_next w /\ v_product w' = v_product w /\
  v_products w' = v_products w /\
  count_events is_process (log w') = count_events is_process (log w) /\
  set_status "paused" (upload_status s') = set_status "paused" (upload_status s) /\
  (status (upload_status s') = "paused" \/ upload_status s' = upload_status s).
Proof.
  intros Hw Hp Hs. unfold upload_worker.
  destruct w as [fp hl dl l ps nx i0 p op0 e0 au im lg]. simpl in Hw.
  destruct l; try discriminate; simpl; rewrite ?Hp, ?Hs; simpl;
    rewrite ?count_events_app; simpl; repeat split; auto; lia.
Qed.

(** X21: a pause and resume cycle neither skips nor repeats an item.  While
    the pause signal is set and the stop signal is not, a thread in the wait
    loop of lines 149-151 stays there however long it runs: it calls the
    processor for nothing, keeps the item in hand and the position of the
    iteration, and changes nothing in the status but the state, which it
    sets to paused.  Once the pause signal is cleared, the thread at line
    149 goes on with that same item: three statements later the state is
    running and current is the 1-based number of the item. *)
Theorem paused_thread_waits (n : nat) (s : Sys) (w : Thread) :
  (waiting (pc w) = true ->
   upload_pause_event s = true -> upload_stop_event s = false ->
   let s' := fst (run ext n (s, w)) in
   let w' := snd (run ext n (s, w)) in
   waiting (pc w') = true /\
   v_i w' = v_i w /\ v_next w' = v_next w /\ v_product w' = v_product w /\
   v_products w' = v_products w /\
   count_events is_process (log w') = count_events is_process (log w) /\
   set_status "paused" (upload_status s') = set_status "paused" (upload_status s) /\
   (status (upload_status s') = "paused" \/ upload_status s' = upload_status s)) /\
  (pc w = L149 -> upload_pause_event s = false ->
   let s' := fst (run ext 3 (s, w)) in
   let w' := snd (run ext 3 (s, w)) in
   pc w' = L155 /\ v_i w' = v_i w /\ v_product w' = v_product w /\
   log w' = log w /\
   upload_status s' = set_current (v_i w + 1) (set_status "running" (upload_status s))).
Proof.
  split.
  - revert s w. induction n as [|n IH]; intros s w Hw Hp Hs; [simpl; auto 10|].
    destruct (wait_step s w Hw Hp Hs) as (Hw1 & Hp1 & Hs1 & E1 & E2 & E3 & E4 & E5 & E6 & E7).
    rewrite run_step.
    destruct (upload_worker ext s w) as [s1 w1]. cbn [fst snd] in *.
    destruct (IH s1 w1 Hw1 Hp1 Hs1) as (F0 & F1 & F2 & F3 & F4 & F5 & F6 & F7).
    repeat split; try congruence.
    destruct F7 as [F7|F7]; [by left|]. rewrite F7. done.
  - intros Hpc Hp. destruct w as [fp hl dl l ps nx i0 p op0 e0 au im lg].
    simpl in Hpc. subst l.
    assert (H : run ext 3 (s, mkThread fp hl dl L149 ps nx i0 p op0 e0 au im lg) =
                (with_status (set_current (i0 + 1))
                             (with_status (set_status "running") s),
                 mkThread fp hl dl L155 ps nx i0 p op0 e0 au im lg)).
    { istep. rewrite Hp. cbn [andb]. istep. istep. apply run_nil. }
    rewrite H. done.
Qed.

(** X22: a stop request does not keep the item that waits in a pause from
    being processed.  The wait loop of line 149 ends as soon as the stop
    signal is set, and control falls through to line 153: the item in hand
    is handed to the processor and counted, and the loop is left only at
    the check of line 144 of the next round.  The delay is one that
    [time.sleep] accepts. *)
Theorem stop_while_waiting_processes_item (s : Sys) (w : Thread) (a : Automation)
    (m : gmap string string) (tj path : string) :
  pc w = L149 ->
  upload_stop_event s = true ->
  v_product w !! "title" = Some tj ->
  v_product w !! "image_path" = Some path ->
  v_automation w = Some a ->
  v_image_mappings w = Some m ->
  upload_product a (count_events is_process (log w)) (substituted m (v_product w)) = None ->
  (0 <= a_delay w < 9223372037)%Z ->
  exists n s' w',
    run ext n (s, w) = (s', w') /\ pc w' = L142 /\
    upload_stop_event s' = true /\
    success (upload_status s') = success (upload_status s) + 1 /\
    current (upload_status s') = v_i w + 1 /\
    log w' = (log w ++ [EProcess (substituted m (v_product w)); ESleep (a_delay w)])%list.
Proof.
  intros Hpc Hs Htj Hpath Ha Hm Hout Hd.
  destruct w as [fp hl dl l ps nx i0 p op0 e0 au im lg].
  cbn [pc v_product v_automation v_image_mappings log a_delay v_i] in *. subst l au im.
  destruct (body_run ext s (mkThread fp hl dl L153 ps nx i0 p op0 e0 (Some a) (Some m) lg)
              a m tj path) as (n & s' & w' & Hrun & Hpc' & _ & _ & H); try done.
  cbn [log v_product a_delay v_i] in H. rewrite Hout, (time_sleep_returns _ Hd) in H.
  destruct H as (H1 & H2).
  exists (S n), s', w'. split.
  { eapply run_cons. unfold upload_worker at 1. wsimpl. rewrite Hs.
    rewrite andb_false_r. exact Hrun. }
  split; [done|]. rewrite H1. simpl. split; [|done].
  assert (Hev : forall k x, upload_stop_event (fst (run ext k x)) = upload_stop_event (fst x)).
  { clear. induction k as [|k IH]; intros [s0 w0]; [done|]. rewrite run_step, IH.
    unfold upload_worker. destruct (pc w0); simpl; repeat case_match; done. }
  specialize (Hev n (s, mkThread fp hl dl L153 ps nx i0 p op0 e0 (Some a) (Some m) lg)).
  rewrite Hrun in Hev. simpl in Hev. congruence.
Qed.

End Pausing.

(** ** The properties above at concrete inputs *)

Lemma upload_file_refused_witness :
  fst (upload_file demo_ext (Some ("notes.txt", "text")) (fresh true false)) =
  with_status (fun _ => initial_status) (fresh true false).
Proof.
  apply (upload_file_refused demo_ext (Some ("notes.txt", "text")) (fresh true false)).
  right. exists "notes.txt", "text". split; [reflexivity|]. right. reflexivity.
Defined.

Lemma upload_file_unparsable_witness :
  files (fst (upload_file demo_ext (Some ("items.csv", "bad")) (fresh false false)))
    !! "/tmp/sheets/items.csv" = Some "bad".
Proof.
  rewrite (upload_file_unparsable demo_ext "items.csv" "bad" "cannot parse").
  - reflexivity.
  - discriminate.
  - reflexivity.
  - reflexivity.
Defined.

Lemma upload_file_accepted_witness :
  exists products,
    parse_spreadsheet demo_ext "good" = inr products /\ 3 = length products.
Proof.
  destruct (upload_file_accepted demo_ext "items.csv" "good" initial
              (fst (upload_file demo_ext (Some ("items.csv", "good")) initial))
              3 ["a.png"; "b.png"; "c.png"])
    as (products & H1 & H2 & _).
  - vm_compute. reflexivity.
  - exists products. split; [exact H1|exact H2].
Defined.

Lemma upload_file_missing_image_path_witness :
  sess_product_count
    (session (fst (upload_file demo_ext_partial (Some ("items.csv", "good")) initial)))
  = Some 2.
Proof.
  destruct (upload_file_missing_image_path demo_ext_partial "items.csv" "good"
              [prodA; prodD] initial) as (_ & _ & _ & H & _).
  - discriminate.
  - reflexivity.
  - reflexivity.
  - apply Exists_cons_tl, Exists_cons_hd. reflexivity.
  - exact H.
Defined.

Lemma upload_image_second_mapping_witness :
  let r1 := mkImageReq (Some ("shirt.png", "first")) (Some "0") (Some "a.png") in
  let r2 := mkImageReq (Some ("shirt.png", "second")) (Some "1") (Some "b.png") in
  let s2 := fst (upload_image demo_ext r2 (fst (upload_image demo_ext r1 initial))) in
  sess_image_mappings (session s2) = Some {[ "a.png" := "/tmp/images/shirt.png" ]} /\
  files s2 !! "/tmp/images/shirt.png" = Some "second".
Proof.
  destruct (upload_image_second_mapping demo_ext "shirt.png" "shirt.png" "first" "second"
              "0" "1" "a.png" "b.png" initial) as (_ & _ & H1 & _ & H3 & _);
    try discriminate; try reflexivity.
  split; [exact H1|exact H3].
Defined.

Lemma upload_then_start_witness :
  total (upload_status
           (exec demo_ext [Start default_start; Tick 0; Tick 0; Tick 0]
                 (fst (upload_file demo_ext (Some ("items.csv", "good")) initial)))) = 3.
Proof.
  destruct (upload_then_start demo_ext "items.csv" "good" default_start initial
              (fst (upload_file demo_ext (Some ("items.csv", "good")) initial))
              3 ["a.png"; "b.png"; "c.png"] 2%Z) as (_ & H).
  - vm_compute. reflexivity.
  - reflexivity.
  - exact (f_equal total H).
Defined.

Lemma item_uploaded_witness :
  exists n s' w',
    run demo_ext n (fresh false true,
                    item_thread L153 prodA (Some always_ok) (Some demo_table) 2)
      = (s', w') /\
    success (upload_status s') = 1 /\
    log w' = [EProcess (<["image_path" := "/tmp/images/a.png"]> prodA); ESleep 2].
Proof.
  destruct (item_uploaded demo_ext (fresh false true)
              (item_thread L153 prodA (Some always_ok) (Some demo_table) 2)
              always_ok demo_table "A" "a.png")
    as (n & s' & w' & Hrun & _ & _ & Hst & Hlog);
    try reflexivity; [simpl; lia|].
  exists n, s', w'. split; [exact Hrun|]. split; [by rewrite Hst|exact Hlog].
Defined.

Lemma item_failure_recorded_witness :
  exists n s' w',
    run demo_ext n (fresh false false,
                    item_thread L153 prodA (Some always_fails) (Some ∅) 2)
      = (s', w') /\
    errors (upload_status s') = [mkError (RefNum 1) "A" "upload failed"] /\
    log w' = [EProcess prodA].
Proof.
  destruct (item_failure_recorded demo_ext (fresh false false)
              (item_thread L153 prodA (Some always_fails) (Some ∅) 2)
              always_fails ∅ "A" "a.png" "upload failed")
    as (n & s' & w' & Hrun & _ & _ & Hst & Hlog); try reflexivity.
  exists n, s', w'. split; [exact Hrun|]. split; [by rewrite Hst|exact Hlog].
Defined.

Lemma bad_delay_counts_item_twice_witness :
  exists n s' w',
    run demo_ext n (fresh false false,
                    item_thread L153 prodA (Some always_ok) (Some ∅) 9223372037)
      = (s', w') /\
    success (upload_status s') = 1 /\ failed (upload_status s') = 1.
Proof.
  destruct (bad_delay_counts_item_twice demo_ext (fresh false false)
              (item_thread L153 prodA (Some always_ok) (Some ∅) 9223372037)
              always_ok ∅ "A" "a.png")
    as (n & s' & w' & e & Hrun & _ & _ & _ & Hs & Hf & _); try reflexivity.
  - right. simpl. lia.
  - exists n, s', w'. split; [exact Hrun|]. split; [exact Hs|exact Hf].
Defined.

Lemma item_with_missing_key_witness :
  exists n s' w',
    run demo_ext n (fresh false false,
                    item_thread L153 prodE (Some always_ok) (Some ∅) 2)
      = (s', w') /\
    errors (upload_status s') = [mkError (RefNum 1) "Product 1" "'title'"] /\
    log w' = [].
Proof.
  destruct (item_with_missing_key demo_ext (fresh false false)
              (item_thread L153 prodE (Some always_ok) (Some ∅) 2))
    as (n & s' & w' & Hrun & _ & _ & Hst & Hlog).
  - reflexivity.
  - right. split; [reflexivity|]. simpl. eauto.
  - exists n, s', w'. split; [exact Hrun|]. split; [by rewrite Hst|exact Hlog].
Defined.

Lemma loop_with_unbound_names_witness :
  exists n s' w',
    run demo_ext n (fresh false false, item_thread L153 prodA None None 2) = (s', w') /\
    failed (upload_status s') = 1 /\ log w' = [].
Proof.
  destruct (loop_with_unbound_names demo_ext (fresh false false)
              (item_thread L153 prodA None None 2)) as (H & _);
    try reflexivity.
  destruct H as (n & s' & w' & Hrun & _ & Hst & Hlog).
  - reflexivity.
  - simpl. eauto.
  - exists n, s', w'. split; [exact Hrun|]. split; [by rewrite Hst|exact Hlog].
Defined.

Lemma loop_status_invariant_witness :
  let st := upload_status (exec demo_ext stopped_run (loop_sys 0)) in
  success st + failed st <= current st /\ current st <= total st.
Proof.
  destruct (loop_status_invariant demo_ext stopped_run 0 (loop_sys 0)
              (loop_thread [prodA; prodB; prodC] fails_on_second demo_table 0))
    as (H1 & H2 & _).
  - vm_compute. reflexivity.
  - vm_compute. reflexivity.
  - reflexivity.
  - reflexivity.
  - simpl. lia.
  - vm_compute. reflexivity.
  - vm_compute. reflexivity.
  - vm_compute. reflexivity.
  - vm_compute. reflexivity.
  - split; [exact H1|exact H2].
Defined.

Lemma stop_while_waiting_processes_item_witness :
  exists n s' w',
    run demo_ext n (fresh false true,
                    item_thread L149 prodA (Some always_ok) (Some ∅) 0) = (s', w') /\
    upload_stop_event s' = true /\
    log w' = [EProcess prodA; ESleep 0].
Proof.
  destruct (stop_while_waiting_processes_item demo_ext (fresh false true)
              (item_thread L149 prodA (Some always_ok) (Some ∅) 0)
              always_ok ∅ "A" "a.png")
    as (n & s' & w' & Hrun & _ & Hstop & _ & _ & Hlog).
  - reflexivity.
  - vm_compute. reflexivity.
  - vm_compute. reflexivity.
  - vm_compute. reflexivity.
  - reflexivity.
  - reflexivity.
  - reflexivity.
  - simpl. lia.
  - exists n, s', w'. split; [exact Hrun|]. split; [exact Hstop|exact Hlog].
Defined.
